(** * claims-pay: the local claims processor (src/local_processor.py)

    A shallow embedding of the autocoding, risk scoring, settlement and
    batch loop of [local_processor.py], and the properties its design
    document states about them.

    Modelling conventions.
    - Python [str] is [string]; [str.lower] and [str.split] act on the
      ASCII range.
    - Python [float] is [Q]: comparisons and arithmetic are exact, so
      rounding, NaN and the infinities are outside the model.
    - An exception is a value of [exn]; a call that may raise returns a
      [result].  Code that also reads or writes the outside world (files,
      standard output, the clock) lives in the monad [Py].
    - The external services (HL7 parser, NER pipeline, ollama, scikit-learn,
      the builtin [float]) are fields of the classes [Sklearn] and
      [Externals]; the repository's own code is translated line by line. *)

From Stdlib Require Import List String Ascii Bool Arith ZArith QArith Lia Lqa.
Import ListNotations.
Local Open Scope string_scope.
Local Open Scope list_scope.

(** ** Exceptions and results *)

Inductive exn : Type :=
| KeyError (key : string)
| IndexError
| ValueError (arg : string)
| NotFittedError
| NameError (name : string)
| ExternalError (what : string).

Inductive result (A : Type) : Type :=
| Ok (a : A)
| Raise (e : exn).
Arguments Ok {A} a.
Arguments Raise {A} e.

Definition rbind {A B} (r : result A) (k : A -> result B) : result B :=
  match r with
  | Ok a => k a
  | Raise e => Raise e
  end.

(** [try: v = r  except: v = d] with a bare [except]. *)
Definition try_except {A} (r : result A) (d : A) : A :=
  match r with
  | Ok a => a
  | Raise _ => d
  end.

(** ** Strings *)

Definition lower_ascii (c : ascii) : ascii :=
  let n := nat_of_ascii c in
  if (65 <=? n)%nat && (n <=? 90)%nat then ascii_of_nat (n + 32) else c.

Fixpoint lower (s : string) : string :=
  match s with
  | EmptyString => EmptyString
  | String c s' => String (lower_ascii c) (lower s')
  end.

(** [str_in a b] is Python's [a in b] on strings. *)
Fixpoint str_in (needle hay : string) : bool :=
  if prefix needle hay then true
  else match hay with
       | EmptyString => false
       | String _ hay' => str_in needle hay'
       end.

Fixpoint rev_string (s : string) : string :=
  match s with
  | EmptyString => EmptyString
  | String c s' => rev_string s' ++ String c EmptyString
  end.

(** [endswith s suffix] is [s.endswith(suffix)]. *)
Definition endswith (s suffix : string) : bool :=
  prefix (rev_string suffix) (rev_string s).

(** Whitespace as [str.split()] sees it on ASCII: TAB, LF, VT, FF, CR,
    FS, GS, RS, US and the space. *)
Definition is_space (c : ascii) : bool :=
  let n := nat_of_ascii c in
  ((9 <=? n)%nat && (n <=? 13)%nat) || ((28 <=? n)%nat && (n <=? 32)%nat).

(** [split_from cur s]: the tokens of [s], [cur] being the characters of
    the token under construction, in reverse. *)
Fixpoint split_from (cur : list ascii) (s : string) : list string :=
  let flush (rest : list string) :=
    match cur with
    | [] => rest
    | _ => string_of_list_ascii (rev cur) :: rest
    end in
  match s with
  | EmptyString => flush []
  | String c s' =>
      if is_space c then flush (split_from [] s')
      else split_from (c :: cur) s'
  end.

(** [split s] is [s.split()]. *)
Definition split (s : string) : list string := split_from [] s.

(** [getitem0 l] is [l[0]]. *)
Definition getitem0 {A} (l : list A) : result A :=
  match l with
  | [] => Raise IndexError
  | a :: _ => Ok a
  end.

Fixpoint join (sep : string) (l : list string) : string :=
  match l with
  | [] => ""
  | [a] => a
  | a :: l' => a ++ sep ++ join sep l'
  end.

(** ** Dictionaries with string keys, in insertion order *)

Definition dict (V : Type) : Type := list (string * V).

(** [dict_get d k default] is [d.get(k, default)]. *)
Fixpoint dict_get {V} (d : dict V) (k : string) (default : V) : V :=
  match d with
  | [] => default
  | (k', v) :: d' => if String.eqb k' k then v else dict_get d' k default
  end.

(** [dict_getitem d k] is [d[k]]. *)
Fixpoint dict_getitem {V} (d : dict V) (k : string) : result V :=
  match d with
  | [] => Raise (KeyError k)
  | (k', v) :: d' => if String.eqb k' k then Ok v else dict_getitem d' k
  end.

(** Iterating a dict yields its keys. *)
Definition keys {V} (d : dict V) : list string := map fst d.
Definition values {V} (d : dict V) : list V := map snd d.

(** ** LocalAutocoder *)

(** One span of the NER pipeline; only ['word'] is read. *)
Record Entity : Type := { entity_group : string; word : string }.

(** The dict [{"ICD": [...], "CPT": [...]}]. *)
Record Codes : Type := { ICD : list string; CPT : list string }.

Definition code_map : dict string :=
  [("diabetes", "E11.9"); ("blood test", "82947"); ("office visit", "99213")].

(** The body of the loop [for ent in entities] of [autocode]. *)
Definition autocode_step (codes : Codes) (ent : Entity) : Codes :=
  let word := lower (word ent) in
  if existsb (fun diag => str_in diag word) (keys code_map) then
    {| ICD := ICD codes ++ [dict_get code_map word "Unmapped"];
       CPT := CPT codes |}
  else if existsb (fun proc => str_in proc word) ["test"; "visit"] then
    {| ICD := ICD codes;
       CPT := CPT codes ++ [dict_get code_map word "Unmapped"] |}
  else codes.

Definition autocode_entities (entities : list Entity) : Codes :=
  fold_left autocode_step entities {| ICD := []; CPT := [] |}.

(** [repr_str s] is [repr(s)] for a string without quotes, backslashes or
    control characters (every value of [code_map] and the default). *)
Definition repr_str (s : string) : string := "'" ++ s ++ "'".

Definition repr_list (l : list string) : string :=
  "[" ++ join ", " (map repr_str l) ++ "]".

(** [str_codes c] is [str(c)] for the dict built by [autocode]. *)
Definition str_codes (c : Codes) : string :=
  "{'ICD': " ++ repr_list (ICD c) ++ ", 'CPT': " ++ repr_list (CPT c) ++ "}".

(** ** The external collaborators *)

(** scikit-learn: [TfidfVectorizer(max_features=100)] and
    [LogisticRegression()].  A vectorizer that has been fitted carries a
    [Vocabulary]; [predict_proba1 c x] is [c.predict_proba(x)[0][1]], a
    probability. *)
Class Sklearn : Type := {
  Vocabulary : Type;
  Features : Type;
  Classifier : Type;
  fit_transform : list string -> Vocabulary * Features;
  transform : Vocabulary -> list string -> Features;
  fit : Features -> list Z -> Classifier;
  predict_proba1 : Classifier -> Features -> Q;
  predict_proba1_range : forall c x, (0 <= predict_proba1 c x <= 1)%Q
}.

(** The services the processor calls.  [parse_hl7_claim] opens a file and
    walks an hl7apy message; what it returns for a path is taken as given.
    [float_of_str] is the builtin [float] on a string.  [timestamp_now n] is
    what the [n]-th reading of [pd.Timestamp.now()] returns. *)
Class Externals : Type := {
  listdir : string -> result (list string);
  parse_hl7_claim : string -> result (string * Q);
  ner_pipeline : string -> result (list Entity);
  ollama_generate : string -> string -> result (dict string);
  float_of_str : string -> result Q;
  timestamp_now : nat -> Z
}.

Definition OLLAMA_MODEL : string := "llama3".

(** [path_join a b] is [os.path.join(a, b)] on POSIX. *)
Definition path_join (a b : string) : string :=
  if prefix "/" b then b
  else if String.eqb a "" || endswith a "/" then a ++ b
  else a ++ "/" ++ b.

(** One row of [paid_claims.csv]. *)
Record LedgerRow : Type := {
  row_codes : string;
  row_score : Q;
  row_paid_amount : Q;
  row_status : string;
  row_timestamp : Z
}.

(** One printed line; the numbers are kept exact instead of formatted. *)
Inductive Line : Type :=
| RejectedLine (score : Q) (hl7_file : string)
| PaidLine (hl7_file : string) (coded : Codes) (score amount : Q)
| BatchCompleteLine (rejections : nat)
| PortalMetricsLine (n : nat) (total_paid acceptance_rate : Q)
| PortfolioLine (current_portfolio hist_avg : Q).

Definition Qltb (x y : Q) : bool := negb (Qle_bool y x).

Definition Qsum (l : list Q) : Q := fold_right Qplus 0%Q l.

(** The mean of a column; of an empty one pandas prints NaN, here it is 0. *)
Definition Qmean (l : list Q) : Q := (Qsum l / inject_Z (Z.of_nat (List.length l)))%Q.

Section Processor.

Context {SK : Sklearn} {EX : Externals}.

(** ** The world outside the process

    The files the code touches by name, the number of clock readings so
    far and what has been printed.  [None] is a file that does not exist;
    [historical_csv_file p] is the [total_value] column of the file at
    [p]. *)
Record World : Type := {
  risk_model_pkl : option Classifier;
  paid_claims_csv : option (list LedgerRow);
  historical_csv_file : string -> option (list Q);
  clock : nat;
  stdout : list Line
}.

Definition Py (A : Type) : Type := World -> result A * World.

Definition ret {A} (a : A) : Py A := fun w => (Ok a, w).

Definition raise {A} (e : exn) : Py A := fun w => (Raise e, w).

Definition bind {A B} (m : Py A) (k : A -> Py B) : Py B :=
  fun w =>
    match m w with
    | (Ok a, w') => k a w'
    | (Raise e, w') => (Raise e, w')
    end.

Definition lift {A} (r : result A) : Py A := fun w => (r, w).

Notation "x <- m ;; k" := (bind m (fun x => k))
  (at level 100, m at next level, right associativity).
Notation "' p <- m ;; k" := (bind m (fun x => let p := x in k))
  (at level 100, p pattern, m at next level, right associativity).
Notation "m ;;; k" := (bind m (fun _ => k))
  (at level 100, right associativity).

Definition print (l : Line) : Py unit :=
  fun w => (Ok tt, {| risk_model_pkl := risk_model_pkl w;
                      paid_claims_csv := paid_claims_csv w;
                      historical_csv_file := historical_csv_file w;
                      clock := clock w;
                      stdout := stdout w ++ [l] |}).

(** [pd.Timestamp.now()]. *)
Definition Timestamp_now : Py Z :=
  fun w => (Ok (timestamp_now (clock w)),
            {| risk_model_pkl := risk_model_pkl w;
               paid_claims_csv := paid_claims_csv w;
               historical_csv_file := historical_csv_file w;
               clock := S (clock w);
               stdout := stdout w |}).

(** [df.to_csv('paid_claims.csv', mode='a', header=not exists, index=False)]
    for a one-row frame: the file is created with its header when absent,
    and the row is appended. *)
Definition to_csv_append (row : LedgerRow) : Py unit :=
  fun w => (Ok tt,
            {| risk_model_pkl := risk_model_pkl w;
               paid_claims_csv :=
                 Some (match paid_claims_csv w with
                       | Some rows => rows ++ [row]
                       | None => [row]
                       end);
               historical_csv_file := historical_csv_file w;
               clock := clock w;
               stdout := stdout w |}).

(** [joblib.dump(clf, 'risk_model.pkl')]. *)
Definition joblib_dump (c : Classifier) : Py unit :=
  fun w => (Ok tt,
            {| risk_model_pkl := Some c;
               paid_claims_csv := paid_claims_csv w;
               historical_csv_file := historical_csv_file w;
               clock := clock w;
               stdout := stdout w |}).

(** *** autocode *)

Definition autocode (claim_text : string) : result Codes :=
  rbind (ner_pipeline claim_text) (fun entities =>
  Ok (autocode_entities entities)).

(** ** LocalRiskEngine *)

(** [vectorizer = None] is a [TfidfVectorizer] that was never fitted. *)
Record LocalRiskEngine : Type := {
  vectorizer : option Vocabulary;
  clf : Classifier
}.

Definition seed_text : list string :=
  ["diabetes check"; "routine visit"; "high risk procedure"].
Definition seed_codes : list string := ["E11.9"; "99213"; "Unmapped"].
Definition seed_paid : list Z := [1; 1; 0]%Z.

(** [df['text'] + ' ' + df['codes']]. *)
Definition seed_corpus : list string :=
  map (fun tc => (fst tc ++ " " ++ snd tc)%string) (combine seed_text seed_codes).

Definition _train_mock_model : Py LocalRiskEngine :=
  let (vocabulary, X) := fit_transform seed_corpus in
  let c := fit X seed_paid in
  joblib_dump c ;;;
  ret {| vectorizer := Some vocabulary; clf := c |}.

(** [LocalRiskEngine.__init__]: a fresh vectorizer and classifier, then
    either the classifier is replaced by the persisted one, or both are
    trained on the seed data. *)
Definition LocalRiskEngine_init : Py LocalRiskEngine :=
  fun w =>
    match risk_model_pkl w with
    | Some c => ret {| vectorizer := None; clf := c |} w
    | None => _train_mock_model w
    end.

(** [self.vectorizer.transform(docs)]. *)
Definition vectorizer_transform (self : LocalRiskEngine) (docs : list string)
  : result Features :=
  match vectorizer self with
  | Some vocabulary => Ok (transform vocabulary docs)
  | None => Raise NotFittedError
  end.

Definition prompt_of (coded_claim : Codes) (claim_text : string) : string :=
  "Risk score (0-1, high=likely paid) for claim: " ++ claim_text
    ++ ". Codes: " ++ str_codes coded_claim.

(** The [try] block of [score]:
    [float(ollama.generate(...)['response'].split()[0])]. *)
Definition llm_attempt (coded_claim : Codes) (claim_text : string) : result Q :=
  rbind (ollama_generate OLLAMA_MODEL (prompt_of coded_claim claim_text)) (fun resp =>
  rbind (dict_getitem resp "response") (fun response =>
  rbind (getitem0 (split response)) (fun token =>
  float_of_str token))).

(** The [try]/[except] of [score]: the value bound to [llm_score]. *)
Definition llm_score (coded_claim : Codes) (claim_text : string) : Q :=
  try_except (llm_attempt coded_claim claim_text) 0.5%Q.

Definition score (self : LocalRiskEngine) (coded_claim : Codes)
  (claim_text : string) : result Q :=
  let llm_score := llm_score coded_claim claim_text in
  rbind (vectorizer_transform self [(claim_text ++ " " ++ str_codes coded_claim)%string])
    (fun features =>
  let ml_score := predict_proba1 (clf self) features in
  let final_score := ((llm_score + ml_score) / 2)%Q in
  Ok final_score).

(** ** simulate_payment *)

Definition simulate_payment (coded_claim : Codes) (score claim_value : Q)
  : Py (bool * Q) :=
  if Qltb 0.7%Q score then
    let paid_amount := (claim_value * 0.98)%Q in
    now <- Timestamp_now ;;
    to_csv_append {| row_codes := str_codes coded_claim;
                     row_score := score;
                     row_paid_amount := paid_amount;
                     row_status := "Paid";
                     row_timestamp := now |} ;;;
    ret (true, paid_amount)
  else ret (false, 0%Q).

(** ** run_portal_metrics *)

(** The files are read as [World] holds them: a ledger that exists is the
    rows [pd.read_csv] returns with their [paid_amount], a historical
    summary that exists is its [total_value] column.  A file that pandas
    cannot read, or that lacks the column, has no counterpart in [World]:
    the exceptions such a file would raise are outside the model. *)
Definition run_portal_metrics (historical_csv : string) : Py unit :=
  fun w =>
    (total_paid <-
       match paid_claims_csv w with
       | Some df =>
           let total_paid := Qsum (map row_paid_amount df) in
           let acceptance_rate :=
             if (0 <? List.length df)%nat
             then (inject_Z (Z.of_nat (List.length df)) / 10 * 100)%Q else 0%Q in
           print (PortalMetricsLine (List.length df) total_paid acceptance_rate) ;;;
           ret (Some total_paid)
       | None => ret None
       end ;;
     match historical_csv_file w historical_csv with
     | Some hist_total_value =>
         match total_paid with
         | Some current_portfolio =>
             print (PortfolioLine current_portfolio (Qmean hist_total_value))
         | None => raise (NameError "total_paid")
         end
     | None => ret tt
     end) w.

(** ** main *)

(** The body of [for hl7_file in os.listdir(hl7_dir)] once the file name
    has passed the [.hl7] test; returns the updated [rejections]. *)
Definition process_claim (risk_engine : LocalRiskEngine)
  (hl7_dir hl7_file : string) (rejections : nat) : Py nat :=
  '(claim_text, claim_value) <- lift (parse_hl7_claim (path_join hl7_dir hl7_file)) ;;
  coded <- lift (autocode claim_text) ;;
  score <- lift (score risk_engine coded claim_text) ;;
  '(paid, amount) <- simulate_payment coded score claim_value ;;
  if negb paid then
    print (RejectedLine score hl7_file) ;;;
    ret (S rejections)
  else
    print (PaidLine hl7_file coded score amount) ;;;
    ret rejections.

Fixpoint main_loop (risk_engine : LocalRiskEngine) (hl7_dir : string)
  (files : list string) (rejections : nat) : Py nat :=
  match files with
  | [] => ret rejections
  | hl7_file :: files' =>
      if endswith hl7_file ".hl7" then
        rejections' <- process_claim risk_engine hl7_dir hl7_file rejections ;;
        main_loop risk_engine hl7_dir files' rejections'
      else main_loop risk_engine hl7_dir files' rejections
  end.

Definition main (hl7_dir historical_csv : string) : Py unit :=
  risk_engine <- LocalRiskEngine_init ;;
  files <- lift (listdir hl7_dir) ;;
  rejections <- main_loop risk_engine hl7_dir files 0%nat ;;
  print (BatchCompleteLine rejections) ;;;
  run_portal_metrics historical_csv.

(** ** Vocabulary of the properties *)

(** The ways the generative oracle fails, step by step through the [try]
    block of [score]: the call raises; the reply has no ['response'] field;
    the response holds no token; its first token is not a number. *)
Inductive generative_failure (coded_claim : Codes) (claim_text : string) : Prop :=
| oracle_unreachable (e : exn) :
    ollama_generate OLLAMA_MODEL (prompt_of coded_claim claim_text) = Raise e ->
    generative_failure coded_claim claim_text
| reply_malformed (resp : dict string) (e : exn) :
    ollama_generate OLLAMA_MODEL (prompt_of coded_claim claim_text) = Ok resp ->
    dict_getitem resp "response" = Raise e ->
    generative_failure coded_claim claim_text
| response_empty (resp : dict string) (response : string) :
    ollama_generate OLLAMA_MODEL (prompt_of coded_claim claim_text) = Ok resp ->
    dict_getitem resp "response" = Ok response ->
    split response = [] ->
    generative_failure coded_claim claim_text
| token_unparsable (resp : dict string) (response token : string)
    (rest : list string) (e : exn) :
    ollama_generate OLLAMA_MODEL (prompt_of coded_claim claim_text) = Ok resp ->
    dict_getitem resp "response" = Ok response ->
    split response = token :: rest ->
    float_of_str token = Raise e ->
    generative_failure coded_claim claim_text.

(** The world after one row has been appended to the ledger and the clock
    has been read once. *)
Definition ledger_appended (w : World) (row : LedgerRow) : World :=
  {| risk_model_pkl := risk_model_pkl w;
     paid_claims_csv := Some (match paid_claims_csv w with
                              | Some rows => rows ++ [row]
                              | None => [row]
                              end);
     historical_csv_file := historical_csv_file w;
     clock := S (clock w);
     stdout := stdout w |}.

End Processor.

(** The strings a code list may hold. *)
Definition allowed_code (c : string) : Prop :=
  In c ["E11.9"; "82947"; "99213"; "Unmapped"].

Definition is_hl7 (hl7_file : string) : bool := endswith hl7_file ".hl7".

Definition is_rejected_line (l : Line) : bool :=
  match l with RejectedLine _ _ => true | _ => false end.

Definition is_paid_line (l : Line) : bool :=
  match l with PaidLine _ _ _ _ => true | _ => false end.

Definition is_claim_line (l : Line) : bool :=
  is_rejected_line l || is_paid_line l.

Definition is_summary_line (l : Line) : bool :=
  match l with BatchCompleteLine _ => true | _ => false end.

Definition count_rejected (lines : list Line) : nat :=
  List.length (filter is_rejected_line lines).

(** What the loop body computes for an entry before it settles it:
    the codes, the score and the claim value, or the exception raised on
    the way. *)
Definition claim_assessment {SK : Sklearn} {EX : Externals}
  (risk_engine : LocalRiskEngine) (hl7_dir hl7_file : string)
  : result (Codes * Q * Q) :=
  rbind (parse_hl7_claim (path_join hl7_dir hl7_file)) (fun parsed =>
  rbind (autocode (fst parsed)) (fun coded =>
  rbind (score risk_engine coded (fst parsed)) (fun score =>
  Ok (coded, score, snd parsed)))).

(** The entries whose score does not pass the threshold. *)
Definition rejected_entry {SK : Sklearn} {EX : Externals}
  (risk_engine : LocalRiskEngine) (hl7_dir hl7_file : string) : bool :=
  match claim_assessment risk_engine hl7_dir hl7_file with
  | Ok (_, score, _) => negb (Qltb 0.7%Q score)
  | Raise _ => false
  end.

(** The outcome line of an entry: a Paid line with 98% of the value
    above the threshold, a Rejected line otherwise. *)
Definition claim_line {SK : Sklearn} {EX : Externals}
  (risk_engine : LocalRiskEngine) (hl7_dir hl7_file : string) : option Line :=
  match claim_assessment risk_engine hl7_dir hl7_file with
  | Ok (coded, score, claim_value) =>
      Some (if Qltb 0.7%Q score
            then PaidLine hl7_file coded score (claim_value * 0.98)%Q
            else RejectedLine score hl7_file)
  | Raise _ => None
  end.

Definition is_portal_line (l : Line) : bool :=
  match l with
  | PortalMetricsLine _ _ _ | PortfolioLine _ _ => true
  | _ => false
  end.

(** The same services with another HL7 parser. *)
Definition with_parser (EX : Externals)
  (parser : string -> result (string * Q)) : Externals :=
  {| listdir := listdir;
     parse_hl7_claim := parser;
     ner_pipeline := ner_pipeline;
     ollama_generate := ollama_generate;
     float_of_str := float_of_str;
     timestamp_now := timestamp_now |}.

(** ** A concrete test bench

    Stand-ins for the external services, in the manner of the stubs a test
    suite would install, on which the embedding is run. *)

(** A classifier stub: the probability depends on the code in the text. *)
Definition bench_proba (docs : list string) : Q :=
  if existsb (str_in "E11.9") docs then 0.9%Q
  else if existsb (str_in "99213") docs then 0.8%Q
  else 0.3%Q.

Definition bench_sklearn : Sklearn.
Proof.
  refine {| Vocabulary := unit;
            Features := list string;
            Classifier := unit;
            fit_transform := fun docs => (tt, docs);
            transform := fun _ docs => docs;
            fit := fun _ _ => tt;
            predict_proba1 := fun _ docs => bench_proba docs |}.
  intros _ docs; unfold bench_proba.
  destruct (existsb (str_in "E11.9") docs);
    [|destruct (existsb (str_in "99213") docs)];
    split; discriminate.
Defined.

Definition bench_listdir (d : string) : result (list string) :=
  if String.eqb d "batch3" then Ok ["a.hl7"; "notes.txt"; "b.hl7"; "c.hl7"]
  else if String.eqb d "batch1" then Ok ["b.hl7"]
  else if String.eqb d "broken" then Ok ["a.hl7"; "x.hl7"; "c.hl7"]
  else Raise (ExternalError "FileNotFoundError").

Definition bench_parse (path : string) : result (string * Q) :=
  if endswith path "/a.hl7" then Ok ("diabetes check", 100%Q)
  else if endswith path "/b.hl7" then Ok ("high risk procedure", 150%Q)
  else if endswith path "/c.hl7" then Ok ("office visit", 200%Q)
  else if endswith path "/x.hl7" then Ok ("garbled", 150%Q)
  else Raise (ExternalError "FileNotFoundError").

Definition bench_ner (text : string) : result (list Entity) :=
  if String.eqb text "diabetes check"
  then Ok [{| entity_group := "DISEASE"; word := "Diabetes" |}]
  else if String.eqb text "office visit"
  then Ok [{| entity_group := "PROC"; word := "office visit" |}]
  else if String.eqb text "routine visit"
  then Ok [{| entity_group := "PROC"; word := "Visit" |}]
  else if String.eqb text "garbled"
  then Raise (ExternalError "RuntimeError")
  else Ok [].

Definition bench_ollama (model prompt : string) : result (dict string) :=
  if str_in "diabetes" prompt then Ok [("model", model); ("response", "0.9 likely paid")]
  else if str_in "office visit" prompt then Ok [("response", " 0.8")]
  else if str_in "high risk" prompt then Ok [("response", "0.2")]
  else if str_in "routine visit" prompt then Ok [("response", "5 out of 5")]
  else if str_in "no field" prompt then Ok [("model", model)]
  else if str_in "blank" prompt then Ok [("response", "   ")]
  else if str_in "chatty" prompt then Ok [("response", "Sure! 0.9")]
  else Raise (ExternalError "ConnectionError").

Definition bench_float (s : string) : result Q :=
  if String.eqb s "0.9" then Ok 0.9%Q
  else if String.eqb s "0.8" then Ok 0.8%Q
  else if String.eqb s "0.2" then Ok 0.2%Q
  else if String.eqb s "5" then Ok 5%Q
  else Raise (ValueError s).

Definition bench_externals : Externals :=
  {| listdir := bench_listdir;
     parse_hl7_claim := bench_parse;
     ner_pipeline := bench_ner;
     ollama_generate := bench_ollama;
     float_of_str := bench_float;
     timestamp_now := fun n => (1000 + Z.of_nat n)%Z |}.

(** A first run: no persisted model, no ledger, no historical summary. *)
Definition fresh_world : World (SK := bench_sklearn) :=
  {| risk_model_pkl := None;
     paid_claims_csv := None;
     historical_csv_file := fun _ => None;
     clock := 0;
     stdout := [] |}.

(** A later run: the model persisted by an earlier one is on disk. *)
Definition second_run_world : World (SK := bench_sklearn) :=
  {| risk_model_pkl := Some (tt : @Classifier bench_sklearn);
     paid_claims_csv := None;
     historical_csv_file := fun _ => None;
     clock := 0;
     stdout := [] |}.

Definition bench_engine : LocalRiskEngine (SK := bench_sklearn) :=
  {| vectorizer := Some (tt : @Vocabulary bench_sklearn); clf := tt |}.

Definition bench_main (hl7_dir : string) :=
  main (SK := bench_sklearn) (EX := bench_externals) hl7_dir "hist.csv".


(** The codes of the claim text routine visit. *)
Definition bench_visit_codes : Codes := {| ICD := []; CPT := ["Unmapped"] |}.

(** The world once the engine has been trained on the seed data. *)
Definition bench_trained_world : World (SK := bench_sklearn) :=
  snd (LocalRiskEngine_init fresh_world).

(** The world once the first claim of the directory broken is settled. *)
Definition bench_after_first_claim : World (SK := bench_sklearn) :=
  snd (main_loop (EX := bench_externals) bench_engine "broken" ["a.hl7"] 0
         bench_trained_world).

(** A parser that refuses every path that does not end with .hl7. *)
Definition strict_parser (path : string) : result (string * Q) :=
  if endswith path ".hl7" then bench_parse path
  else Raise (ExternalError "HL7Exception").

(** ** Vocabulary of the further properties *)

(** The test of the first branch of [autocode]'s loop. *)
Definition is_diagnosis (ent : Entity) : bool :=
  existsb (fun diag => str_in diag (lower (word ent))) (keys code_map).

(** The test under which the second branch is reached and taken. *)
Definition is_procedure (ent : Entity) : bool :=
  negb (is_diagnosis ent)
  && existsb (fun proc => str_in proc (lower (word ent))) ["test"; "visit"].

(** The code either branch appends for an entity. *)
Definition appended_code (ent : Entity) : string :=
  dict_get code_map (lower (word ent)) "Unmapped".

(** The entity with its text lowercased beforehand. *)
Definition lowered (ent : Entity) : Entity :=
  {| entity_group := entity_group ent; word := lower (word ent) |}.

(** The rows of the ledger file; a file that does not exist has none. *)
Definition ledger_rows {SK : Sklearn} (w : World) : list LedgerRow :=
  match paid_claims_csv w with
  | Some rows => rows
  | None => []
  end.

Definition count_paid (lines : list Line) : nat :=
  List.length (filter is_paid_line lines).

(** A row as [simulate_payment] writes it. *)
Definition paid_row (row : LedgerRow) : Prop :=
  row_status row = "Paid" /\ (0.7 < row_score row)%Q.

(** A first run on a system that has its historical summary. *)
Definition audited_world : World (SK := bench_sklearn) :=
  {| risk_model_pkl := None;
     paid_claims_csv := None;
     historical_csv_file :=
       fun p => if String.eqb p "hist.csv" then Some [1000%Q; 2000%Q] else None;
     clock := 0;
     stdout := [] |}.

(** A string that is not empty and holds no whitespace. *)
Definition clean_token (t : string) : bool :=
  negb (String.eqb t "")
  && forallb (fun c => negb (is_space c)) (list_ascii_of_string t).

(** The same services with another [float]. *)
Definition with_float (EX : Externals) (float' : string -> result Q)
  : Externals :=
  {| listdir := listdir;
     parse_hl7_claim := parse_hl7_claim;
     ner_pipeline := ner_pipeline;
     ollama_generate := ollama_generate;
     float_of_str := float';
     timestamp_now := timestamp_now |}.

(** A [float] that refuses the empty string and any string with
    whitespace in it. *)
Definition fussy_float (t : string) : result Q :=
  if clean_token t then bench_float t else Raise (ValueError t).

(** * Properties *)

Example lower_ex : lower "Diabetes Mellitus" = "diabetes mellitus".
Proof. reflexivity. Qed.

Example split_ex : split "  0.8 looks fine
 " = ["0.8"; "looks"; "fine"].
Proof. reflexivity. Qed.

Example endswith_ex :
  endswith "a.hl7" ".hl7" = true /\ endswith "a.hl7.bak" ".hl7" = false
  /\ endswith "hl7" ".hl7" = false.
Proof. repeat split. Qed.

Example path_join_ex : path_join "batch3" "a.hl7" = "batch3/a.hl7".
Proof. reflexivity. Qed.

(** ** Arithmetic on scores *)

Lemma Qltb_true_iff (x y : Q) : Qltb x y = true <-> (x < y)%Q.
Proof.
  unfold Qltb. rewrite negb_true_iff.
  split; intros H.
  - apply Qnot_le_lt. intros Hle. apply Qle_bool_iff in Hle. congruence.
  - destruct (Qle_bool y x) eqn:E; [|reflexivity].
    apply Qle_bool_iff in E. exfalso. exact (Qlt_not_le _ _ H E).
Qed.

Lemma Qltb_false_iff (x y : Q) : Qltb x y = false <-> (y <= x)%Q.
Proof.
  unfold Qltb. rewrite negb_false_iff. apply Qle_bool_iff.
Qed.

Lemma mean_in_unit_interval (a b : Q) :
  (0 <= a <= 1 -> 0 <= b <= 1 -> 0 <= (a + b) / 2 <= 1)%Q.
Proof.
  intros [Ha0 Ha1] [Hb0 Hb1].
  assert (E : ((a + b) / 2 == (1 # 2) * a + (1 # 2) * b)%Q) by field.
  rewrite E. split; lra.
Qed.

(** ** The code map and the autocoder *)

Lemma dict_get_default_or_value {V} (d : dict V) (k : string) (default : V) :
  dict_get d k default = default \/ In (dict_get d k default) (values d).
Proof.
  induction d as [|[k' v] d IH]; simpl.
  - now left.
  - destruct (String.eqb k' k).
    + right. now left.
    + destruct IH as [IH|IH]; [now left | right; now right].
Qed.

Lemma dict_get_absent {V} (d : dict V) (k : string) (default : V) :
  ~ In k (keys d) -> dict_get d k default = default.
Proof.
  induction d as [|[k' v] d IH]; simpl; intros Hk.
  - reflexivity.
  - destruct (String.eqb_spec k' k) as [->|_].
    + exfalso. apply Hk. now left.
    + apply IH. intros Hin. apply Hk. now right.
Qed.

Lemma code_map_get_allowed (w : string) :
  allowed_code (dict_get code_map w "Unmapped").
Proof.
  unfold allowed_code.
  destruct (dict_get_default_or_value code_map w "Unmapped") as [-> | H].
  - simpl. tauto.
  - simpl in H. simpl. tauto.
Qed.

Lemma autocode_step_allowed (codes : Codes) (ent : Entity) :
  Forall allowed_code (ICD codes) -> Forall allowed_code (CPT codes) ->
  Forall allowed_code (ICD (autocode_step codes ent)) /\
  Forall allowed_code (CPT (autocode_step codes ent)).
Proof.
  intros HI HC. unfold autocode_step.
  destruct (existsb _ (keys code_map)); [|destruct (existsb _ _)]; simpl.
  - split; [|assumption].
    apply Forall_app. split; [assumption|].
    constructor; [apply code_map_get_allowed | constructor].
  - split; [assumption|].
    apply Forall_app. split; [assumption|].
    constructor; [apply code_map_get_allowed | constructor].
  - now split.
Qed.

Lemma fold_autocode_step_allowed (entities : list Entity) (codes : Codes) :
  Forall allowed_code (ICD codes) -> Forall allowed_code (CPT codes) ->
  Forall allowed_code (ICD (fold_left autocode_step entities codes)) /\
  Forall allowed_code (CPT (fold_left autocode_step entities codes)).
Proof.
  revert codes.
  induction entities as [|ent entities IH]; intros codes HI HC; simpl.
  - now split.
  - destruct (autocode_step_allowed codes ent HI HC) as [HI' HC'].
    now apply IH.
Qed.

(** What [autocode] appends for an entity whose lowercased text is not
    itself a key of [code_map]: always the default, whatever the text
    contains. *)
Lemma autocode_step_inexact (codes : Codes) (ent : Entity) :
  ~ In (lower (word ent)) (keys code_map) ->
  Forall (fun c => c = "Unmapped") (ICD codes ++ CPT codes) ->
  Forall (fun c => c = "Unmapped")
    (ICD (autocode_step codes ent) ++ CPT (autocode_step codes ent)).
Proof.
  intros Hk H. unfold autocode_step.
  rewrite (dict_get_absent code_map _ "Unmapped" Hk).
  apply Forall_app in H. destruct H as [HI HC].
  destruct (existsb _ (keys code_map)); [|destruct (existsb _ _)]; simpl;
    repeat (apply Forall_app; split); auto.
Qed.

Section ProcessorProperties.

Context {SK : Sklearn} {EX : Externals}.

(** C9: every string in either list of the code set that [autocode]
    returns is one of the three values of the code map, E11.9, 82947 or
    99213, or the default Unmapped. *)
Theorem autocode_codes_allowed (claim_text : string) (codes : Codes) :
  autocode claim_text = Ok codes ->
  Forall allowed_code (ICD codes) /\ Forall allowed_code (CPT codes).
Proof.
  unfold autocode, rbind.
  destruct (ner_pipeline claim_text) as [entities|e]; [|discriminate].
  intros H. injection H as <-.
  unfold autocode_entities.
  apply fold_autocode_step_allowed; constructor.
Qed.

End ProcessorProperties.

Lemma autocode_codes_allowed_witness :
  autocode (EX := bench_externals) "diabetes check"
    = Ok {| ICD := ["E11.9"]; CPT := [] |} /\
  Forall allowed_code ["E11.9"] /\ Forall allowed_code [].
Proof.
  split; [reflexivity|].
  apply (autocode_codes_allowed (EX := bench_externals) "diabetes check"
           {| ICD := ["E11.9"]; CPT := [] |}).
  reflexivity.
Defined.

(** C3: on the entity text Diabetes Mellitus, whose lowercased form
    contains the known phrase diabetes (mapped to E11.9), the autocoder
    records Unmapped, because the code is looked up under the whole text. *)
Theorem autocode_substring_yields_unmapped :
  str_in "diabetes" (lower "Diabetes Mellitus") = true /\
  dict_get code_map "diabetes" "Unmapped" = "E11.9" /\
  autocode_entities [{| entity_group := "DISEASE"; word := "Diabetes Mellitus" |}]
    = {| ICD := ["Unmapped"]; CPT := [] |}.
Proof. repeat split. Qed.

(** ** Settlement *)

Section Settlement.

Context {SK : Sklearn} {EX : Externals}.

Lemma simulate_payment_paid (coded : Codes) (score claim_value : Q) (w : World) :
  (0.7 < score)%Q ->
  simulate_payment coded score claim_value w
  = (Ok (true, (claim_value * 0.98)%Q),
     ledger_appended w {| row_codes := str_codes coded;
                          row_score := score;
                          row_paid_amount := (claim_value * 0.98)%Q;
                          row_status := "Paid";
                          row_timestamp := timestamp_now (clock w) |}).
Proof.
  intros H. unfold simulate_payment.
  apply Qltb_true_iff in H. rewrite H. reflexivity.
Qed.

Lemma simulate_payment_rejected (coded : Codes) (score claim_value : Q) (w : World) :
  (score <= 0.7)%Q ->
  simulate_payment coded score claim_value w = (Ok (false, 0%Q), w).
Proof.
  intros H. unfold simulate_payment.
  apply Qltb_false_iff in H. rewrite H. reflexivity.
Qed.

(** C1: the claim is paid exactly when score > 0.7; then the amount is
    claim_value * 0.98; at score <= 0.7, the value 0.7 included, it is
    rejected with amount 0.  This holds for every claim_value, hence for
    every claim_value >= 0. *)
Theorem simulate_payment_threshold (coded : Codes) (score claim_value : Q)
  (w : World) :
  let outcome := fst (simulate_payment coded score claim_value w) in
  ((0.7 < score)%Q -> outcome = Ok (true, (claim_value * 0.98)%Q)) /\
  ((score <= 0.7)%Q -> outcome = Ok (false, 0%Q)) /\
  ((exists amount, outcome = Ok (true, amount)) <-> (0.7 < score)%Q).
Proof.
  cbv zeta. split; [|split].
  - intros H. now rewrite simulate_payment_paid.
  - intros H. now rewrite simulate_payment_rejected.
  - split.
    + intros [amount H].
      destruct (Qlt_le_dec 0.7 score) as [Hlt|Hle]; [assumption|].
      rewrite simulate_payment_rejected in H by assumption. discriminate.
    + intros H. eexists. now rewrite simulate_payment_paid.
Qed.


End Settlement.

Lemma simulate_payment_threshold_witness :
  fst (simulate_payment (EX := bench_externals) {| ICD := ["E11.9"]; CPT := [] |}
         0.9 100 fresh_world) = Ok (true, (100 * 0.98)%Q) /\
  fst (simulate_payment (EX := bench_externals) {| ICD := ["E11.9"]; CPT := [] |}
         0.7 100 fresh_world) = Ok (false, 0%Q).
Proof.
  split.
  - apply (simulate_payment_threshold (EX := bench_externals)
             {| ICD := ["E11.9"]; CPT := [] |} 0.9 100 fresh_world).
    reflexivity.
  - apply (simulate_payment_threshold (EX := bench_externals)
             {| ICD := ["E11.9"]; CPT := [] |} 0.7 100 fresh_world).
    discriminate.
Defined.



(** ** The risk engine *)

Section RiskEngine.

Context {SK : Sklearn} {EX : Externals}.

Lemma llm_attempt_raises_iff (coded : Codes) (text : string) :
  (exists e, llm_attempt coded text = Raise e) <-> generative_failure coded text.
Proof.
  unfold llm_attempt, rbind. split.
  - intros [e H].
    destruct (ollama_generate _ _) as [resp|e1] eqn:E1;
      [|exact (oracle_unreachable _ _ e1 E1)].
    destruct (dict_getitem resp "response") as [response|e2] eqn:E2;
      [|exact (reply_malformed _ _ resp e2 E1 E2)].
    destruct (split response) as [|token rest] eqn:E3;
      [exact (response_empty _ _ resp response E1 E2 E3)|].
    simpl in H.
    exact (token_unparsable _ _ resp response token rest e E1 E2 E3 H).
  - intros [e H | resp e H1 H2 | resp response H1 H2 H3
           | resp response token rest e H1 H2 H3 H4].
    + rewrite H. eauto.
    + rewrite H1, H2. eauto.
    + rewrite H1, H2, H3. simpl. eauto.
    + rewrite H1, H2, H3. simpl. eauto.
Qed.

Lemma llm_score_of_attempt (coded : Codes) (text : string) :
  (forall x, llm_attempt coded text = Ok x -> llm_score coded text = x) /\
  (forall e, llm_attempt coded text = Raise e -> llm_score coded text = 0.5%Q).
Proof.
  unfold llm_score. split; intros ? H; now rewrite H.
Qed.

Lemma score_unfold (self : LocalRiskEngine) (coded : Codes) (text : string) :
  score self coded text
  = match vectorizer self with
    | Some vocabulary =>
        Ok ((llm_score coded text
             + predict_proba1 (clf self)
                 (transform vocabulary [(text ++ " " ++ str_codes coded)%string]))
            / 2)%Q
    | None => Raise NotFittedError
    end.
Proof.
  unfold score, vectorizer_transform, rbind.
  now destruct (vectorizer self).
Qed.

(** C2, as the code has it: the final score is the unweighted mean of the
    generative and the statistical sub-score, and the statistical one lies
    in [0,1]; the generative one is whatever number the oracle's first
    token parses to, so the final score lies in [0,1] when that number
    does. *)
Theorem score_is_mean (self : LocalRiskEngine) (coded : Codes)
  (text : string) (final_score : Q) :
  score self coded text = Ok final_score ->
  exists vocabulary,
    vectorizer self = Some vocabulary /\
    let generative := llm_score coded text in
    let statistical :=
      predict_proba1 (clf self)
        (transform vocabulary [(text ++ " " ++ str_codes coded)%string]) in
    final_score = ((generative + statistical) / 2)%Q /\
    (0 <= statistical <= 1)%Q /\
    ((0 <= generative <= 1)%Q -> (0 <= final_score <= 1)%Q).
Proof.
  rewrite score_unfold.
  destruct (vectorizer self) as [vocabulary|]; [|discriminate].
  intros H. injection H as <-.
  exists vocabulary. split; [reflexivity|]. cbv zeta.
  split; [reflexivity|]. split; [apply predict_proba1_range|].
  intros Hg. apply mean_in_unit_interval; [assumption|].
  apply predict_proba1_range.
Qed.

(** C4: whichever way the generative oracle fails (the call raises, the
    reply lacks its response field, the response is empty or blank, the
    first token is not a number), the generative score is 0.5 and [score]
    goes on with it: nothing is raised on that account, and an engine
    with a fitted vectorizer returns a score. *)
Theorem llm_failure_gives_neutral_score (coded : Codes) (text : string) :
  generative_failure coded text ->
  llm_score coded text = 0.5%Q /\
  forall self vocabulary,
    vectorizer self = Some vocabulary ->
    score self coded text
    = Ok ((0.5 + predict_proba1 (clf self)
                   (transform vocabulary [(text ++ " " ++ str_codes coded)%string]))
          / 2)%Q.
Proof.
  intros H. apply llm_attempt_raises_iff in H. destruct H as [e H].
  assert (E : llm_score coded text = 0.5%Q)
    by exact (proj2 (llm_score_of_attempt coded text) e H).
  split; [exact E|].
  intros self vocabulary Hv.
  rewrite score_unfold, Hv, E. reflexivity.
Qed.

(** The only exception [score] lets through is the unfitted vectorizer's. *)
Lemma score_raises_only_not_fitted (self : LocalRiskEngine) (coded : Codes)
  (text : string) (e : exn) :
  score self coded text = Raise e ->
  e = NotFittedError /\ vectorizer self = None.
Proof.
  rewrite score_unfold.
  destruct (vectorizer self); [discriminate|].
  intros H. injection H as <-. now split.
Qed.

(** Construction when a model is on disk: the classifier is the loaded
    one and the vectorizer stays unfitted, so every [score] raises. *)
Lemma init_with_persisted_model (w : World) (c : Classifier) :
  risk_model_pkl w = Some c ->
  LocalRiskEngine_init w = (Ok {| vectorizer := None; clf := c |}, w) /\
  forall coded text,
    score {| vectorizer := None; clf := c |} coded text = Raise NotFittedError.
Proof.
  intros H. unfold LocalRiskEngine_init. rewrite H. split; [reflexivity|].
  intros coded text. now rewrite score_unfold.
Qed.

(** Construction when no model is on disk: both parts are trained on the
    seed data, the classifier alone is written to disk, and no exception
    is raised. *)
Lemma init_without_persisted_model (w : World) :
  risk_model_pkl w = None ->
  exists vocabulary c w',
    LocalRiskEngine_init w = (Ok {| vectorizer := Some vocabulary; clf := c |}, w') /\
    (vocabulary, c) = (fst (fit_transform seed_corpus),
                       fit (snd (fit_transform seed_corpus)) seed_paid) /\
    risk_model_pkl w' = Some c /\
    paid_claims_csv w' = paid_claims_csv w /\
    stdout w' = stdout w /\ clock w' = clock w /\
    historical_csv_file w' = historical_csv_file w.
Proof.
  intros H. unfold LocalRiskEngine_init, _train_mock_model. rewrite H.
  destruct (fit_transform seed_corpus) as [vocabulary X]. simpl.
  do 3 eexists. split; [reflexivity|]. simpl. repeat split.
Qed.

End RiskEngine.

(** C2 as stated fails: for the text routine visit the oracle answers
    5 out of 5; the generative sub-score is 5 and the final score 2.65. *)
Lemma score_above_one_counterexample :
  autocode (EX := bench_externals) "routine visit" = Ok bench_visit_codes /\
  llm_score (EX := bench_externals) bench_visit_codes "routine visit" = 5%Q /\
  exists final_score,
    score (EX := bench_externals) bench_engine bench_visit_codes "routine visit"
      = Ok final_score /\
    (final_score == 2.65)%Q /\ ~ (final_score <= 1)%Q.
Proof.
  split; [reflexivity|]. split; [reflexivity|].
  eexists. split; [reflexivity|]. split; [reflexivity|].
  intros H. apply H. reflexivity.
Qed.

Lemma score_is_mean_witness :
  exists vocabulary,
    vectorizer bench_engine = Some vocabulary /\
    let generative := llm_score (EX := bench_externals)
                        {| ICD := ["E11.9"]; CPT := [] |} "diabetes check" in
    let statistical :=
      predict_proba1 (clf bench_engine)
        (transform vocabulary ["diabetes check {'ICD': ['E11.9'], 'CPT': []}"]) in
    (180 # 200 = (generative + statistical) / 2)%Q /\
    (0 <= statistical <= 1)%Q /\
    ((0 <= generative <= 1)%Q -> (0 <= 180 # 200 <= 1)%Q).
Proof.
  apply (score_is_mean (EX := bench_externals) bench_engine
           {| ICD := ["E11.9"]; CPT := [] |} "diabetes check" (180 # 200)%Q).
  reflexivity.
Defined.

Lemma llm_failure_gives_neutral_score_witness :
  llm_score (EX := bench_externals) {| ICD := []; CPT := [] |} "unreadable" = 0.5%Q.
Proof.
  apply (llm_failure_gives_neutral_score (SK := bench_sklearn)
           (EX := bench_externals) {| ICD := []; CPT := [] |} "unreadable").
  apply (oracle_unreachable (EX := bench_externals) _ _
           (ExternalError "ConnectionError")).
  reflexivity.
Defined.

(** The other failure modes, each on a reply of the test bench. *)
Example llm_failure_modes :
  llm_score (EX := bench_externals) {| ICD := []; CPT := [] |} "no field" = 0.5%Q /\
  llm_score (EX := bench_externals) {| ICD := []; CPT := [] |} "blank" = 0.5%Q /\
  llm_score (EX := bench_externals) {| ICD := []; CPT := [] |} "chatty" = 0.5%Q.
Proof. repeat split. Qed.

(** C5: on a second run, with the model of the first run on disk, the
    batch stops at its first claim with NotFittedError: the vectorizer was
    neither persisted nor reloaded. *)
Theorem second_run_batch_fails :
  fst (LocalRiskEngine_init second_run_world)
    = Ok {| vectorizer := None; clf := (tt : @Classifier bench_sklearn) |} /\
  bench_main "batch3" second_run_world = (Raise NotFittedError, second_run_world) /\
  fst (bench_main "batch3" fresh_world) = Ok tt.
Proof. repeat split. Qed.

(** ** The batch loop *)

Section Batch.

Context {SK : Sklearn} {EX : Externals}.

(** One claim: either an exception leaves the world untouched, or the
    claim is rejected (one line, counter up by one), or it is paid (one
    ledger row, one line, counter unchanged). *)
Lemma process_claim_cases (eng : LocalRiskEngine) (dir f : string) (r : nat)
  (w : World) :
  (exists e, process_claim eng dir f r w = (Raise e, w)) \/
  (exists sc,
     (sc <= 0.7)%Q /\
     process_claim eng dir f r w
     = (Ok (S r), snd (print (RejectedLine sc f) w))) \/
  (exists coded sc amount row,
     (0.7 < sc)%Q /\
     process_claim eng dir f r w
     = (Ok r, snd (print (PaidLine f coded sc amount) (ledger_appended w row)))).
Proof.
  unfold process_claim, bind, lift.
  destruct (parse_hl7_claim (path_join dir f)) as [[text value]|e];
    [|left; eauto].
  destruct (autocode text) as [coded|e]; [|left; eauto].
  destruct (score eng coded text) as [sc|e]; [|left; eauto].
  right. destruct (Qlt_le_dec 0.7 sc) as [H|H].
  - right. rewrite simulate_payment_paid by assumption.
    exists coded, sc. do 2 eexists. split; [assumption|reflexivity].
  - left. rewrite simulate_payment_rejected by assumption.
    exists sc. split; [assumption|reflexivity].
Qed.

(** What one claim does to the output and to the files [main] reads. *)
Lemma process_claim_output (eng : LocalRiskEngine) (dir f : string) (r : nat)
  (w w' : World) (res : result nat) :
  process_claim eng dir f r w = (res, w') ->
  risk_model_pkl w' = risk_model_pkl w /\
  historical_csv_file w' = historical_csv_file w /\
  match res with
  | Raise _ => w' = w
  | Ok r' =>
      exists line,
        stdout w' = stdout w ++ [line] /\
        is_claim_line line = true /\
        r' = (r + count_rejected [line])%nat
  end.
Proof.
  destruct (process_claim_cases eng dir f r w)
    as [[e H] | [(sc & _ & H) | (coded & sc & amount & row & _ & H)]];
    rewrite H; intros E; injection E as <- <-; simpl.
  - auto.
  - repeat split. eexists. repeat split. unfold count_rejected. simpl. lia.
  - repeat split. eexists. repeat split. unfold count_rejected. simpl. lia.
Qed.

Lemma count_rejected_app (l1 l2 : list Line) :
  count_rejected (l1 ++ l2) = (count_rejected l1 + count_rejected l2)%nat.
Proof.
  unfold count_rejected. now rewrite filter_app, length_app.
Qed.

(** The loop invariant: the loop prints claim lines only, one per
    processed [.hl7] entry, and the counter grows by the number of
    rejection lines among them. *)
Lemma main_loop_output (eng : LocalRiskEngine) (dir : string)
  (files : list string) :
  forall (r : nat) (w w' : World) (res : result nat),
    main_loop eng dir files r w = (res, w') ->
    exists lines,
      stdout w' = stdout w ++ lines /\
      forallb is_claim_line lines = true /\
      risk_model_pkl w' = risk_model_pkl w /\
      historical_csv_file w' = historical_csv_file w /\
      forall r', res = Ok r' ->
                 r' = (r + count_rejected lines)%nat /\
                 List.length lines = List.length (filter is_hl7 files).
Proof.
  induction files as [|f files IH]; intros r w w' res H; simpl in H.
  - unfold ret in H. injection H as <- <-. exists []. rewrite app_nil_r.
    do 4 (split; [reflexivity|]).
    intros r' Hr. injection Hr as <-.
    split; [unfold count_rejected; simpl; lia | reflexivity].
  - fold (is_hl7 f) in H. simpl. destruct (is_hl7 f) eqn:Ef.
    + unfold bind in H.
      destruct (process_claim eng dir f r w) as [[r1|e] w1] eqn:Ep;
        pose proof (process_claim_output _ _ _ _ _ _ _ Ep) as (Hm & Hh & Hp).
      * destruct Hp as (line & Hout & Hline & Hr1).
        destruct (IH _ _ _ _ H) as (lines & Hout' & Hall & Hm' & Hh' & Hres).
        exists (line :: lines).
        split; [rewrite Hout', Hout, <- app_assoc; reflexivity|].
        split; [simpl; now rewrite Hline, Hall|].
        split; [congruence|]. split; [congruence|].
        intros r' Hr'. destruct (Hres _ Hr') as [-> Hlen]. split.
        -- change (line :: lines) with ([line] ++ lines).
           rewrite count_rejected_app. lia.
        -- simpl. now rewrite Hlen.
      * injection H as <- <-. subst w1. exists []. rewrite app_nil_r.
        do 4 (split; [reflexivity|]). discriminate.
    + apply IH in H. exact H.
Qed.

Lemma main_loop_app (eng : LocalRiskEngine) (dir : string)
  (pre rest : list string) :
  forall (r : nat) (w : World),
    main_loop eng dir (pre ++ rest) r w
    = match main_loop eng dir pre r w with
      | (Ok r', w') => main_loop eng dir rest r' w'
      | (Raise e, w') => (Raise e, w')
      end.
Proof.
  induction pre as [|f pre IH]; intros r w; simpl.
  - reflexivity.
  - destruct (endswith f ".hl7"); [|apply IH].
    unfold bind. destruct (process_claim eng dir f r w) as [[r1|e] w1].
    + apply IH.
    + reflexivity.
Qed.

Lemma LocalRiskEngine_init_total (w : World) :
  exists eng w1,
    LocalRiskEngine_init w = (Ok eng, w1) /\
    stdout w1 = stdout w /\
    historical_csv_file w1 = historical_csv_file w /\
    paid_claims_csv w1 = paid_claims_csv w.
Proof.
  destruct (risk_model_pkl w) as [c|] eqn:E.
  - destruct (init_with_persisted_model w c E) as [H _].
    do 2 eexists. split; [exact H|]. repeat split.
  - destruct (init_without_persisted_model w E)
      as (vocabulary & c & w' & H & _ & _ & Hp & Hs & _ & Hh).
    do 2 eexists. split; [exact H|]. repeat split; assumption.
Qed.

Lemma run_portal_metrics_output (hist : string) (w w' : World)
  (res : result unit) :
  run_portal_metrics hist w = (res, w') ->
  exists lines,
    stdout w' = stdout w ++ lines /\ forallb is_portal_line lines = true.
Proof.
  unfold run_portal_metrics, bind, ret, raise.
  destruct (paid_claims_csv w) as [df|]; simpl;
    destruct (historical_csv_file w hist) as [h|]; simpl;
    intros H; injection H as <- <-; simpl;
    try (eexists; split; [reflexivity|reflexivity]);
    try (exists []; rewrite app_nil_r; split; reflexivity).
  eexists. rewrite <- app_assoc. split; reflexivity.
Qed.

(** One entry that is processed without exception: it was assessed, its
    outcome line is printed, and the counter goes up exactly when the
    score does not pass the threshold. *)
Lemma process_claim_assessed (eng : LocalRiskEngine) (dir f : string)
  (r r' : nat) (w w' : World) :
  process_claim eng dir f r w = (Ok r', w') ->
  exists line,
    claim_line eng dir f = Some line /\
    stdout w' = stdout w ++ [line] /\
    r' = (r + if rejected_entry eng dir f then 1 else 0)%nat.
Proof.
  unfold process_claim, claim_line, rejected_entry, claim_assessment,
    bind, lift, rbind.
  destruct (parse_hl7_claim (path_join dir f)) as [[text value]|e];
    [|discriminate].
  cbn [fst snd].
  destruct (autocode text) as [coded|e]; [|discriminate].
  destruct (score eng coded text) as [sc|e]; [|discriminate].
  unfold simulate_payment.
  destruct (Qltb 0.7 sc); simpl; intros H; injection H as <- <-; simpl;
    eexists; (split; [reflexivity|]); (split; [reflexivity|]); lia.
Qed.

(** The loop that completes: every [.hl7] entry was assessed, the lines
    printed are the outcome lines of these entries in order, and the
    counter has grown by the number of entries below the threshold. *)
Lemma main_loop_assessed (eng : LocalRiskEngine) (dir : string)
  (files : list string) :
  forall (r r' : nat) (w w' : World),
    main_loop eng dir files r w = (Ok r', w') ->
    exists lines,
      stdout w' = stdout w ++ lines /\
      map Some lines = map (claim_line eng dir) (filter is_hl7 files) /\
      r' = (r + List.length (filter (rejected_entry eng dir)
                               (filter is_hl7 files)))%nat.
Proof.
  induction files as [|f files IH]; intros r r' w w' H; simpl in H.
  - unfold ret in H. injection H as <- <-. exists [].
    rewrite app_nil_r. simpl. repeat split. lia.
  - fold (is_hl7 f) in H. simpl. destruct (is_hl7 f).
    + unfold bind in H.
      destruct (process_claim eng dir f r w) as [[r1|e] w1] eqn:Ep;
        [|discriminate].
      destruct (process_claim_assessed _ _ _ _ _ _ _ Ep) as (line & Hl & Hs & Hr).
      destruct (IH _ _ _ _ H) as (lines & Hs' & Hm & Hr').
      exists (line :: lines).
      split; [rewrite Hs', Hs, <- app_assoc; reflexivity|].
      split; [simpl; now rewrite Hl, Hm|].
      simpl. destruct (rejected_entry eng dir f); simpl; lia.
    + exact (IH _ _ _ _ H).
Qed.

(** An entry with an outcome line was assessed, and its settlement is
    rejected exactly when it counts as a rejected entry. *)
Lemma claim_line_settlement (eng : LocalRiskEngine) (dir f : string)
  (line : Line) :
  claim_line eng dir f = Some line ->
  exists coded sc value,
    claim_assessment eng dir f = Ok (coded, sc, value) /\
    line = (if rejected_entry eng dir f
            then RejectedLine sc f
            else PaidLine f coded sc (value * 0.98)%Q) /\
    forall w0 : World,
      fst (simulate_payment coded sc value w0)
      = Ok (if rejected_entry eng dir f
            then (false, 0%Q) else (true, (value * 0.98)%Q)).
Proof.
  unfold claim_line, rejected_entry.
  destruct (claim_assessment eng dir f) as [[[coded sc] value]|e];
    [|discriminate].
  intros H. injection H as <-. exists coded, sc, value.
  split; [reflexivity|].
  destruct (Qltb 0.7 sc) eqn:E; simpl.
  - split; [reflexivity|]. intros w0.
    apply Qltb_true_iff in E. now rewrite simulate_payment_paid.
  - split; [reflexivity|]. intros w0.
    apply Qltb_false_iff in E. now rewrite simulate_payment_rejected.
Qed.

(** C6, as the code has it: when the loop has processed the whole
    directory, every [.hl7] entry has been settled, the counter equals
    the number of entries whose settlement is the rejected outcome (False
    and 0, for a score that does not exceed 0.7), and [main] prints the
    outcome line of each entry in order (a Rejected line exactly for the
    rejected ones), then one summary line whose only content is that
    counter, then the portal lines, whether or not the portal metrics
    raise afterwards.  The number of claims appears nowhere in the
    summary, and [main] returns no value. *)
Theorem main_counts_rejections (dir hist : string) (w w1 w2 : World)
  (eng : LocalRiskEngine) (files : list string) (r : nat) :
  LocalRiskEngine_init w = (Ok eng, w1) ->
  listdir dir = Ok files ->
  main_loop eng dir files 0 w1 = (Ok r, w2) ->
  let claims := filter is_hl7 files in
  r = List.length (filter (rejected_entry eng dir) claims) /\
  (forall f, In f claims ->
     exists coded sc value,
       claim_assessment eng dir f = Ok (coded, sc, value) /\
       claim_line eng dir f
       = Some (if rejected_entry eng dir f
               then RejectedLine sc f
               else PaidLine f coded sc (value * 0.98)%Q) /\
       (rejected_entry eng dir f = true <-> (sc <= 0.7)%Q) /\
       forall w0 : World,
         fst (simulate_payment coded sc value w0)
         = Ok (if rejected_entry eng dir f
               then (false, 0%Q) else (true, (value * 0.98)%Q))) /\
  exists claim_lines portal_lines,
    stdout (snd (main dir hist w))
    = stdout w ++ claim_lines ++ BatchCompleteLine r :: portal_lines /\
    map Some claim_lines = map (claim_line eng dir) claims /\
    forallb is_portal_line portal_lines = true.
Proof.
  intros Hinit Hdir Hloop claims.
  destruct (main_loop_assessed _ _ _ _ _ _ _ Hloop) as (lines & Hs & Hm & Hr).
  fold claims in Hm, Hr.
  split; [exact Hr|]. split.
  - intros f Hf.
    assert (Hline : exists line, claim_line eng dir f = Some line).
    { apply (in_map (claim_line eng dir)) in Hf. rewrite <- Hm in Hf.
      apply in_map_iff in Hf. destruct Hf as (line & Hl & _). eauto. }
    destruct Hline as [line Hline].
    destruct (claim_line_settlement _ _ _ _ Hline)
      as (coded & sc & value & Ha & Hl & Hsettle).
    exists coded, sc, value.
    split; [exact Ha|]. split; [now rewrite Hline, Hl|].
    split; [|exact Hsettle].
    unfold rejected_entry. rewrite Ha. rewrite negb_true_iff.
    apply Qltb_false_iff.
  - destruct (LocalRiskEngine_init_total w) as (eng' & w1' & Hinit' & Hs1 & _).
    rewrite Hinit in Hinit'. injection Hinit' as <- <-.
    destruct (run_portal_metrics hist (snd (print (BatchCompleteLine r) w2)))
      as [res w'] eqn:Eportal.
    destruct (run_portal_metrics_output _ _ _ _ Eportal) as (plines & Hs3 & Hp).
    exists lines, plines.
    split; [|split; assumption].
    assert (Hmain : main dir hist w
                    = run_portal_metrics hist
                        (snd (print (BatchCompleteLine r) w2)))
      by (unfold main, bind, lift; rewrite Hinit, Hdir, Hloop; reflexivity).
    rewrite Hmain, Eportal. simpl.
    rewrite Hs3. simpl. rewrite Hs, Hs1, <- !app_assoc. reflexivity.
Qed.

(** C8: when the entity extractor raises on a claim, [autocode] raises
    the same exception, so does the processing of that claim, and so does
    [main]: the later entries are not processed, and what has been
    printed is claim lines only, without a summary line. *)
Theorem extractor_failure_aborts_batch (dir hist : string) (w w1 w2 : World)
  (eng : LocalRiskEngine) (pre post : list string) (f text : string)
  (value : Q) (r : nat) (e : exn) :
  LocalRiskEngine_init w = (Ok eng, w1) ->
  listdir dir = Ok (pre ++ f :: post) ->
  main_loop eng dir pre 0 w1 = (Ok r, w2) ->
  is_hl7 f = true ->
  parse_hl7_claim (path_join dir f) = Ok (text, value) ->
  ner_pipeline text = Raise e ->
  autocode text = Raise e /\
  process_claim eng dir f r w2 = (Raise e, w2) /\
  main dir hist w = (Raise e, w2) /\
  exists lines,
    stdout w2 = stdout w ++ lines /\
    forallb is_claim_line lines = true /\
    existsb is_summary_line lines = false.
Proof.
  intros Hinit Hdir Hpre Hf Hparse Hner.
  assert (Ha : autocode text = Raise e)
    by (unfold autocode, rbind; now rewrite Hner).
  assert (Hp : process_claim eng dir f r w2 = (Raise e, w2))
    by (unfold process_claim, bind, lift; now rewrite Hparse, Ha).
  split; [exact Ha|]. split; [exact Hp|]. split.
  - unfold main, bind, lift. rewrite Hinit, Hdir, main_loop_app, Hpre.
    simpl. unfold is_hl7 in Hf. rewrite Hf. unfold bind. now rewrite Hp.
  - destruct (main_loop_output _ _ _ _ _ _ _ Hpre) as (lines & Hs & Hall & _).
    destruct (LocalRiskEngine_init_total w) as (eng' & w1' & Hinit' & Hs1 & _).
    rewrite Hinit in Hinit'. injection Hinit' as <- <-.
    exists lines. split; [congruence|]. split; [assumption|].
    clear - Hall. induction lines as [|l lines IH]; [reflexivity|].
    simpl in *. apply andb_true_iff in Hall. destruct Hall as [Hl Hall].
    rewrite (IH Hall). now destruct l.
Qed.

Lemma process_claim_with_parser (parser : string -> result (string * Q))
  (eng : LocalRiskEngine) (dir f : string) (r : nat) (w : World) :
  parser (path_join dir f) = parse_hl7_claim (path_join dir f) ->
  process_claim (EX := with_parser EX parser) eng dir f r w
  = process_claim eng dir f r w.
Proof.
  intros H. unfold process_claim, bind, lift. simpl. rewrite H. reflexivity.
Qed.

Lemma main_loop_filter (eng : LocalRiskEngine) (dir : string)
  (files : list string) :
  forall (r : nat) (w : World),
    main_loop eng dir files r w = main_loop eng dir (filter is_hl7 files) r w.
Proof.
  induction files as [|f files IH]; intros r w; simpl.
  - reflexivity.
  - fold (is_hl7 f). destruct (is_hl7 f) eqn:Ef; simpl.
    + fold (is_hl7 f). rewrite Ef. unfold bind.
      destruct (process_claim eng dir f r w) as [[r1|e] w1];
        [apply IH | reflexivity].
    + apply IH.
Qed.

Lemma main_loop_with_parser (parser : string -> result (string * Q))
  (eng : LocalRiskEngine) (dir : string) (files : list string) :
  (forall f, In f files -> is_hl7 f = true ->
             parser (path_join dir f) = parse_hl7_claim (path_join dir f)) ->
  forall (r : nat) (w : World),
    main_loop (EX := with_parser EX parser) eng dir files r w
    = main_loop eng dir files r w.
Proof.
  induction files as [|f files IH]; intros Hagree r w; simpl.
  - reflexivity.
  - assert (Hrest : forall g, In g files -> is_hl7 g = true ->
                      parser (path_join dir g) = parse_hl7_claim (path_join dir g))
      by (intros g Hg; apply Hagree; now right).
    fold (is_hl7 f). destruct (is_hl7 f) eqn:Ef.
    + unfold bind.
      rewrite (process_claim_with_parser parser eng dir f r w)
        by (apply Hagree; [now left | assumption]).
      destruct (process_claim eng dir f r w) as [[r1|e] w1];
        [now apply IH | reflexivity].
    + now apply IH.
Qed.

(** C10: an entry whose name does not end with [.hl7] is skipped: the
    loop does on a listing exactly what it does on the listing without
    those entries (same exception or count, same files, same output), and
    what the parser would answer on them is never looked at. *)
Theorem non_hl7_entries_skipped (eng : LocalRiskEngine) (dir : string)
  (files : list string) (r : nat) (w : World) :
  main_loop eng dir files r w = main_loop eng dir (filter is_hl7 files) r w /\
  forall parser : string -> result (string * Q),
    (forall f, In f files -> is_hl7 f = true ->
               parser (path_join dir f) = parse_hl7_claim (path_join dir f)) ->
    main_loop (EX := with_parser EX parser) eng dir files r w
    = main_loop eng dir files r w.
Proof.
  split.
  - apply main_loop_filter.
  - intros parser Hagree. now apply main_loop_with_parser.
Qed.

End Batch.

(** ** The batch loop on the test bench *)

(** C6 as stated fails: a batch of three claims with one rejection and
    a batch of one claim with one rejection both return the unit value and
    print the same summary line, which carries the rejection count alone. *)
Lemma batch_summary_omits_total_counterexample :
  let run3 := bench_main "batch3" fresh_world in
  let run1 := bench_main "batch1" fresh_world in
  fst run3 = Ok tt /\
  fst run1 = Ok tt /\
  List.length (filter is_claim_line (stdout (snd run3))) = 3%nat /\
  List.length (filter is_claim_line (stdout (snd run1))) = 1%nat /\
  count_rejected (stdout (snd run3)) = 1%nat /\
  count_rejected (stdout (snd run1)) = 1%nat /\
  filter is_summary_line (stdout (snd run3)) = [BatchCompleteLine 1] /\
  filter is_summary_line (stdout (snd run1)) = [BatchCompleteLine 1].
Proof. vm_compute. repeat split. Qed.

Lemma main_counts_rejections_witness :
  (let claims := filter is_hl7 ["a.hl7"; "notes.txt"; "b.hl7"; "c.hl7"] in
   1%nat = List.length (filter (rejected_entry (EX := bench_externals)
                                  bench_engine "batch3") claims) /\
   (forall f, In f claims ->
      exists coded sc value,
        claim_assessment (EX := bench_externals) bench_engine "batch3" f
        = Ok (coded, sc, value) /\
        claim_line (EX := bench_externals) bench_engine "batch3" f
        = Some (if rejected_entry (EX := bench_externals) bench_engine "batch3" f
                then RejectedLine sc f
                else PaidLine f coded sc (value * 0.98)%Q) /\
        (rejected_entry (EX := bench_externals) bench_engine "batch3" f = true
         <-> (sc <= 0.7)%Q) /\
        forall w0 : World (SK := bench_sklearn),
          fst (simulate_payment (EX := bench_externals) coded sc value w0)
          = Ok (if rejected_entry (EX := bench_externals) bench_engine "batch3" f
                then (false, 0%Q) else (true, (value * 0.98)%Q))) /\
   exists claim_lines portal_lines,
     stdout (snd (bench_main "batch3" fresh_world))
     = stdout fresh_world ++ claim_lines ++ BatchCompleteLine 1 :: portal_lines /\
     map Some claim_lines
     = map (claim_line (EX := bench_externals) bench_engine "batch3") claims /\
     forallb is_portal_line portal_lines = true) /\
  (1%nat = List.length (filter (rejected_entry (EX := bench_externals)
                                  bench_engine "batch1")
                          (filter is_hl7 ["b.hl7"])) /\
   fst (main (EX := bench_externals) "batch1" "hist.csv" audited_world)
   = Raise (NameError "total_paid")).
Proof.
  split.
  - apply (main_counts_rejections (EX := bench_externals) "batch3" "hist.csv"
             fresh_world bench_trained_world
             (snd (main_loop (EX := bench_externals) bench_engine "batch3"
                     ["a.hl7"; "notes.txt"; "b.hl7"; "c.hl7"] 0
                     bench_trained_world))
             bench_engine ["a.hl7"; "notes.txt"; "b.hl7"; "c.hl7"] 1).
    + reflexivity.
    + reflexivity.
    + vm_compute. reflexivity.
  - split; [|vm_compute; reflexivity].
    apply (main_counts_rejections (EX := bench_externals) "batch1" "hist.csv"
             audited_world (snd (LocalRiskEngine_init audited_world))
             (snd (main_loop (EX := bench_externals) bench_engine "batch1"
                     ["b.hl7"] 0 (snd (LocalRiskEngine_init audited_world))))
             bench_engine ["b.hl7"] 1).
    + reflexivity.
    + reflexivity.
    + vm_compute. reflexivity.
Defined.

Lemma extractor_failure_aborts_batch_witness :
  autocode (EX := bench_externals) "garbled" = Raise (ExternalError "RuntimeError") /\
  process_claim (EX := bench_externals) bench_engine "broken" "x.hl7" 0
    bench_after_first_claim
  = (Raise (ExternalError "RuntimeError"), bench_after_first_claim) /\
  bench_main "broken" fresh_world
  = (Raise (ExternalError "RuntimeError"), bench_after_first_claim) /\
  exists lines,
    stdout bench_after_first_claim = stdout fresh_world ++ lines /\
    forallb is_claim_line lines = true /\
    existsb is_summary_line lines = false.
Proof.
  apply (extractor_failure_aborts_batch (EX := bench_externals)
           "broken" "hist.csv" fresh_world bench_trained_world
           bench_after_first_claim bench_engine
           ["a.hl7"] ["c.hl7"] "x.hl7" "garbled" 150 0
           (ExternalError "RuntimeError"));
    reflexivity.
Defined.

Lemma non_hl7_entries_skipped_witness :
  main_loop (EX := bench_externals) bench_engine "batch3"
    ["a.hl7"; "notes.txt"; "b.hl7"; "c.hl7"] 0 bench_trained_world
  = main_loop (EX := bench_externals) bench_engine "batch3"
      ["a.hl7"; "b.hl7"; "c.hl7"] 0 bench_trained_world /\
  main_loop (EX := with_parser bench_externals strict_parser) bench_engine "batch3"
    ["a.hl7"; "notes.txt"; "b.hl7"; "c.hl7"] 0 bench_trained_world
  = main_loop (EX := bench_externals) bench_engine "batch3"
      ["a.hl7"; "notes.txt"; "b.hl7"; "c.hl7"] 0 bench_trained_world.
Proof.
  destruct (non_hl7_entries_skipped (EX := bench_externals) bench_engine "batch3"
              ["a.hl7"; "notes.txt"; "b.hl7"; "c.hl7"] 0 bench_trained_world)
    as [Hfilter Hparser].
  split; [exact Hfilter|].
  apply Hparser.
  intros f [<-|[<-|[<-|[<-|[]]]]] Hf; try reflexivity; discriminate Hf.
Defined.

(** * Further properties of the code *)

(** ** Strings *)

Lemma prefix_iff (p s : string) :
  prefix p s = true <-> exists t, s = (p ++ t)%string.
Proof.
  revert s. induction p as [|c p IH]; intros s.
  - split; [intros _; now exists s | intros _; now destruct s].
  - destruct s as [|d s]; simpl.
    + split; [discriminate | intros [t H]; discriminate].
    + destruct (ascii_dec c d) as [->|Hcd].
      * rewrite IH. split; intros [t H]; exists t.
        -- now rewrite H.
        -- now injection H.
      * split; [discriminate|].
        intros [t H]. injection H as H _. congruence.
Qed.

Lemma string_app_assoc (a b c : string) :
  ((a ++ b) ++ c = a ++ (b ++ c))%string.
Proof. induction a as [|x a IH]; simpl; [reflexivity | now rewrite IH]. Qed.

Lemma string_app_nil_r (a : string) : (a ++ "")%string = a.
Proof. induction a as [|x a IH]; simpl; [reflexivity | now rewrite IH]. Qed.

Lemma rev_string_app (a b : string) :
  rev_string (a ++ b) = (rev_string b ++ rev_string a)%string.
Proof.
  induction a as [|x a IH]; simpl.
  - now rewrite string_app_nil_r.
  - now rewrite IH, string_app_assoc.
Qed.

Lemma rev_string_involutive (a : string) : rev_string (rev_string a) = a.
Proof.
  induction a as [|x a IH]; simpl; [reflexivity|].
  now rewrite rev_string_app, IH.
Qed.

Lemma endswith_iff (s suffix : string) :
  endswith s suffix = true <-> exists stem, s = (stem ++ suffix)%string.
Proof.
  unfold endswith. rewrite prefix_iff. split.
  - intros [t H]. exists (rev_string t).
    rewrite <- (rev_string_involutive s), H, rev_string_app.
    now rewrite rev_string_involutive.
  - intros [stem ->]. exists (rev_string stem). apply rev_string_app.
Qed.

Lemma str_in_nil (needle : string) : str_in needle "" = prefix needle "".
Proof. cbn [str_in]. now destruct (prefix needle ""). Qed.

Lemma str_in_cons (needle : string) (c : ascii) (hay : string) :
  str_in needle (String c hay)
  = prefix needle (String c hay) || str_in needle hay.
Proof. cbn [str_in]. now destruct (prefix needle (String c hay)). Qed.

Lemma str_in_iff (needle hay : string) :
  str_in needle hay = true
  <-> exists before after, hay = (before ++ needle ++ after)%string.
Proof.
  induction hay as [|c hay IH].
  - rewrite str_in_nil, prefix_iff. split.
    + intros [t H]. now exists "", t.
    + intros (before & after & H). exists after.
      destruct before; [exact H | discriminate].
  - rewrite str_in_cons, orb_true_iff, prefix_iff, IH. split.
    + intros [[t H] | (before & after & ->)].
      * now exists "", t.
      * now exists (String c before), after.
    + intros (before & after & H). destruct before as [|d before].
      * left. now exists after.
      * right. injection H as _ ->. now exists before, after.
Qed.

Lemma str_in_refl (s : string) : str_in s s = true.
Proof.
  apply str_in_iff. exists "", "". simpl. now rewrite string_app_nil_r.
Qed.

Lemma lower_ascii_idempotent (c : ascii) :
  lower_ascii (lower_ascii c) = lower_ascii c.
Proof.
  destruct c as [[] [] [] [] [] [] [] []]; reflexivity.
Qed.

Lemma lower_idempotent (s : string) : lower (lower s) = lower s.
Proof.
  induction s as [|c s IH]; simpl; [reflexivity|].
  now rewrite lower_ascii_idempotent, IH.
Qed.

(** ** The autocoder, entity by entity *)

Lemma dict_get_default_or_entry {V} (d : dict V) (k : string) (default : V) :
  dict_get d k default = default \/ In (k, dict_get d k default) d.
Proof.
  induction d as [|[k' v] d IH]; simpl.
  - now left.
  - destruct (String.eqb_spec k' k) as [->|_].
    + right. now left.
    + destruct IH as [IH|IH]; [now left | right; now right].
Qed.

Lemma autocode_step_branches (codes : Codes) (ent : Entity) :
  autocode_step codes ent
  = {| ICD := ICD codes ++ (if is_diagnosis ent then [appended_code ent] else []);
       CPT := CPT codes ++ (if is_procedure ent then [appended_code ent] else []) |}.
Proof.
  unfold autocode_step, is_procedure, is_diagnosis, appended_code.
  set (d := existsb (fun diag => str_in diag (lower (word ent))) (keys code_map)).
  set (p := existsb (fun proc => str_in proc (lower (word ent))) ["test"; "visit"]).
  destruct d, p; cbn [negb andb]; rewrite ?app_nil_r; try reflexivity.
  now destruct codes.
Qed.

Lemma fold_autocode_step_filter (entities : list Entity) :
  forall codes,
    fold_left autocode_step entities codes
    = {| ICD := ICD codes ++ map appended_code (filter is_diagnosis entities);
         CPT := CPT codes ++ map appended_code (filter is_procedure entities) |}.
Proof.
  induction entities as [|ent entities IH]; intros codes; simpl.
  - rewrite !app_nil_r. now destruct codes.
  - rewrite IH, autocode_step_branches. simpl.
    destruct (is_diagnosis ent), (is_procedure ent); simpl;
      rewrite <- ?app_assoc; reflexivity.
Qed.

(** X1: the two lists hold, in extraction order and with repetitions,
    the codes of the entities that pass the diagnosis test and of those
    that fail it and pass the procedure test; every other entity is
    dropped, so the lists never hold more codes than there are entities. *)
Theorem autocode_entities_filter_map (entities : list Entity) :
  autocode_entities entities
  = {| ICD := map appended_code (filter is_diagnosis entities);
       CPT := map appended_code (filter is_procedure entities) |} /\
  (List.length (ICD (autocode_entities entities))
   + List.length (CPT (autocode_entities entities))
   <= List.length entities)%nat.
Proof.
  assert (E : autocode_entities entities
              = {| ICD := map appended_code (filter is_diagnosis entities);
                   CPT := map appended_code (filter is_procedure entities) |})
    by (unfold autocode_entities; now rewrite fold_autocode_step_filter).
  split; [exact E|]. rewrite E. simpl. rewrite !length_map.
  clear E. induction entities as [|ent entities IH]; simpl; [lia|].
  assert (X : is_diagnosis ent = true -> is_procedure ent = false)
    by (unfold is_procedure; now intros ->).
  destruct (is_diagnosis ent); [rewrite X by reflexivity|];
    [|destruct (is_procedure ent)]; simpl; lia.
Qed.

(** X2: coding a concatenation of entity sequences concatenates the
    code lists of the parts. *)
Theorem autocode_entities_app (l1 l2 : list Entity) :
  ICD (autocode_entities (l1 ++ l2))
  = ICD (autocode_entities l1) ++ ICD (autocode_entities l2) /\
  CPT (autocode_entities (l1 ++ l2))
  = CPT (autocode_entities l1) ++ CPT (autocode_entities l2).
Proof.
  unfold autocode_entities. rewrite !fold_autocode_step_filter. simpl.
  now rewrite !filter_app, !map_app.
Qed.

(** X3: the procedure list never holds a code of the code map: every
    entry of it is Unmapped, whatever the entities are. *)
Theorem autocode_cpt_always_unmapped (entities : list Entity) :
  Forall (fun c => c = "Unmapped") (CPT (autocode_entities entities)).
Proof.
  unfold autocode_entities. rewrite fold_autocode_step_filter. simpl.
  apply Forall_forall. intros c Hc.
  apply in_map_iff in Hc. destruct Hc as (ent & <- & Hent).
  apply filter_In in Hent. destruct Hent as [_ Hp].
  unfold is_procedure in Hp. apply andb_true_iff in Hp. destruct Hp as [Hd _].
  apply negb_true_iff in Hd.
  unfold appended_code. apply dict_get_absent. intros Hk.
  assert (T : is_diagnosis ent = true); [|congruence].
  unfold is_diagnosis. apply existsb_exists.
  exists (lower (word ent)). split; [assumption | apply str_in_refl].
Qed.

(** X4: a diagnosis code other than Unmapped is in the list only for an
    entity whose lowercased text is, letter for letter, a phrase of the
    code map, and it is the code of that phrase. *)
Theorem autocode_icd_mapped_only_exact (entities : list Entity) (c : string) :
  In c (ICD (autocode_entities entities)) ->
  c <> "Unmapped" ->
  exists ent, In ent entities /\ In (lower (word ent), c) code_map.
Proof.
  unfold autocode_entities. rewrite fold_autocode_step_filter. simpl.
  intros Hc Hne. apply in_map_iff in Hc. destruct Hc as (ent & <- & Hent).
  apply filter_In in Hent. destruct Hent as [Hent _].
  exists ent. split; [assumption|].
  destruct (dict_get_default_or_entry code_map (lower (word ent)) "Unmapped")
    as [H|H]; [contradiction | exact H].
Qed.

(** X5: the letter case of the entity texts does not matter: lowering
    every text before coding gives the same code set. *)
Theorem autocode_entities_case_insensitive (entities : list Entity) :
  autocode_entities (map lowered entities) = autocode_entities entities.
Proof.
  unfold autocode_entities. generalize {| ICD := []; CPT := [] |}.
  induction entities as [|ent entities IH]; intros codes; simpl.
  - reflexivity.
  - rewrite IH. f_equal.
    unfold autocode_step, lowered. simpl. now rewrite lower_idempotent.
Qed.

Lemma autocode_icd_mapped_only_exact_witness :
  exists ent,
    In ent [{| entity_group := "PROC"; word := "Office Visit" |}] /\
    In (lower (word ent), "99213") code_map.
Proof.
  apply (autocode_icd_mapped_only_exact
           [{| entity_group := "PROC"; word := "Office Visit" |}] "99213").
  - left. reflexivity.
  - discriminate.
Defined.

(** ** The risk engine and the settlement together *)

Section ScoreAndSettlement.

Context {SK : Sklearn} {EX : Externals}.


(** X8: when the generative oracle fails, the final score lies between
    0.25 and 0.75, and the claim is paid exactly when the statistical
    score exceeds 0.9. *)
Theorem neutral_score_payment (self : LocalRiskEngine) (vocabulary : Vocabulary)
  (coded : Codes) (text : string) (claim_value : Q) (w : World) :
  generative_failure coded text ->
  vectorizer self = Some vocabulary ->
  let statistical :=
    predict_proba1 (clf self)
      (transform vocabulary [(text ++ " " ++ str_codes coded)%string]) in
  exists final_score,
    score self coded text = Ok final_score /\
    (0.25 <= final_score <= 0.75)%Q /\
    (fst (simulate_payment coded final_score claim_value w)
     = Ok (true, (claim_value * 0.98)%Q)
     <-> (0.9 < statistical)%Q).
Proof.
  intros Hfail Hv statistical.
  apply llm_attempt_raises_iff in Hfail. destruct Hfail as [e Hfail].
  pose proof (proj2 (llm_score_of_attempt coded text) e Hfail) as Hllm.
  pose proof (predict_proba1_range (clf self)
                (transform vocabulary [(text ++ " " ++ str_codes coded)%string]))
    as [H0 H1].
  fold statistical in H0, H1.
  exists ((0.5 + statistical) / 2)%Q.
  split; [rewrite score_unfold, Hv, Hllm; reflexivity|].
  assert (E : ((0.5 + statistical) / 2 == (1 # 4) + (1 # 2) * statistical)%Q)
    by field.
  split; [rewrite E; split; lra|].
  split.
  - intros Hpaid.
    destruct (Qlt_le_dec 0.7 ((0.5 + statistical) / 2)) as [Hlt|Hle].
    + rewrite E in Hlt. lra.
    + rewrite simulate_payment_rejected in Hpaid by assumption. discriminate.
  - intros Hs. rewrite simulate_payment_paid; [reflexivity|].
    rewrite E. lra.
Qed.

(** X9: a claim whose final score passes the threshold has a generative
    score above 0.4: the statistical score, at most 1, cannot carry it
    alone. *)
Theorem paid_needs_generative_support (self : LocalRiskEngine) (coded : Codes)
  (text : string) (final_score : Q) :
  score self coded text = Ok final_score ->
  (0.7 < final_score)%Q ->
  (0.4 < llm_score coded text)%Q.
Proof.
  rewrite score_unfold.
  destruct (vectorizer self) as [vocabulary|]; [|discriminate].
  intros H. injection H as <-.
  pose proof (predict_proba1_range (clf self)
                (transform vocabulary [(text ++ " " ++ str_codes coded)%string]))
    as [_ H1].
  set (s := predict_proba1 _ _) in *. set (g := llm_score coded text).
  assert (E : ((g + s) / 2 == (1 # 2) * g + (1 # 2) * s)%Q) by field.
  rewrite E. lra.
Qed.

(** X10: for a claim value that is not negative, the amount paid is
    never negative and never exceeds the claim value; a claim that is not
    paid gets the amount 0. *)
Theorem simulate_payment_amount_bounds (coded : Codes) (score claim_value : Q)
  (w : World) (paid : bool) (amount : Q) :
  (0 <= claim_value)%Q ->
  fst (simulate_payment coded score claim_value w) = Ok (paid, amount) ->
  (0 <= amount <= claim_value)%Q /\ (paid = false -> amount = 0%Q).
Proof.
  intros Hv. destruct (Qlt_le_dec 0.7 score) as [H|H].
  - rewrite simulate_payment_paid by assumption. simpl.
    intros E. injection E as <- <-. split; [split; lra | discriminate].
  - rewrite simulate_payment_rejected by assumption. simpl.
    intros E. injection E as <- <-. split; [split; lra | reflexivity].
Qed.

End ScoreAndSettlement.

Lemma neutral_score_payment_witness :
  exists final_score,
    score (EX := bench_externals) bench_engine {| ICD := []; CPT := [] |} "unreadable"
      = Ok final_score /\
    (0.25 <= final_score <= 0.75)%Q /\
    (fst (simulate_payment (EX := bench_externals) {| ICD := []; CPT := [] |}
            final_score 150 fresh_world)
     = Ok (true, (150 * 0.98)%Q)
     <-> (0.9 < bench_proba ["unreadable {'ICD': [], 'CPT': []}"])%Q).
Proof.
  apply (neutral_score_payment (EX := bench_externals) bench_engine tt
           {| ICD := []; CPT := [] |} "unreadable" 150 fresh_world).
  - apply (oracle_unreachable (EX := bench_externals) _ _
             (ExternalError "ConnectionError")).
    reflexivity.
  - reflexivity.
Defined.

Lemma paid_needs_generative_support_witness :
  (0.4 < llm_score (EX := bench_externals)
           {| ICD := ["E11.9"]; CPT := [] |} "diabetes check")%Q.
Proof.
  apply (paid_needs_generative_support (EX := bench_externals) bench_engine
           {| ICD := ["E11.9"]; CPT := [] |} "diabetes check" (180 # 200)%Q).
  - reflexivity.
  - reflexivity.
Defined.

Lemma simulate_payment_amount_bounds_witness :
  (0 <= 100 * 0.98 <= 100)%Q /\ (true = false -> (100 * 0.98)%Q = 0%Q).
Proof.
  apply (simulate_payment_amount_bounds (EX := bench_externals)
           {| ICD := ["E11.9"]; CPT := [] |} 0.9 100 fresh_world true
           (100 * 0.98)%Q).
  - discriminate.
  - reflexivity.
Defined.

(** ** The ledger *)

Section Ledger.

Context {SK : Sklearn} {EX : Externals}.

Lemma ledger_rows_appended (w : World) (row : LedgerRow) :
  ledger_rows (ledger_appended w row) = ledger_rows w ++ [row].
Proof. unfold ledger_rows, ledger_appended. simpl. now destruct (paid_claims_csv w). Qed.

Lemma count_paid_app (l1 l2 : list Line) :
  count_paid (l1 ++ l2) = (count_paid l1 + count_paid l2)%nat.
Proof. unfold count_paid. now rewrite filter_app, length_app. Qed.

Lemma claim_lines_paid_or_rejected (lines : list Line) :
  forallb is_claim_line lines = true ->
  (count_rejected lines + count_paid lines)%nat = List.length lines.
Proof.
  unfold count_rejected, count_paid.
  induction lines as [|l lines IH]; simpl; [reflexivity|].
  intros H. apply andb_true_iff in H. destruct H as [Hl H].
  specialize (IH H). destruct l; simpl in *; try discriminate; lia.
Qed.

Lemma portal_lines_not_claims (lines : list Line) :
  forallb is_portal_line lines = true ->
  existsb is_claim_line lines = false /\ count_paid lines = 0%nat.
Proof.
  unfold count_paid.
  induction lines as [|l lines IH]; simpl; [now split|].
  intros H. apply andb_true_iff in H. destruct H as [Hl H].
  destruct (IH H) as [IH1 IH2].
  destruct l; simpl in *; try discriminate; now split.
Qed.

(** One claim and the ledger: at most one row is appended, a Paid row
    with a score above the threshold, together with its Paid line. *)
Lemma process_claim_ledger (eng : LocalRiskEngine) (dir f : string) (r : nat)
  (w w' : World) (res : result nat) :
  process_claim eng dir f r w = (res, w') ->
  exists new lines,
    ledger_rows w' = ledger_rows w ++ new /\
    stdout w' = stdout w ++ lines /\
    Forall paid_row new /\
    List.length new = count_paid lines /\
    clock w' = (clock w + List.length new)%nat.
Proof.
  unfold process_claim, bind, lift.
  destruct (parse_hl7_claim (path_join dir f)) as [[text value]|e].
  2:{ intros H; injection H as <- <-. exists [], [].
      rewrite !app_nil_r. repeat split; auto. }
  destruct (autocode text) as [coded|e].
  2:{ intros H; injection H as <- <-. exists [], [].
      rewrite !app_nil_r. repeat split; auto. }
  destruct (score eng coded text) as [sc|e].
  2:{ intros H; injection H as <- <-. exists [], [].
      rewrite !app_nil_r. repeat split; auto. }
  destruct (Qlt_le_dec 0.7 sc) as [Hs|Hs].
  - rewrite simulate_payment_paid by assumption. simpl.
    intros H; injection H as <- <-.
    eexists [_], [_]. simpl.
    split; [apply ledger_rows_appended|].
    split; [reflexivity|].
    split; [constructor; [split; [reflexivity | exact Hs] | constructor]|].
    split; [reflexivity | lia].
  - rewrite simulate_payment_rejected by assumption. simpl.
    intros H; injection H as <- <-.
    exists [], [RejectedLine sc f]. simpl.
    rewrite app_nil_r. repeat split; auto.
Qed.

Lemma main_loop_ledger (eng : LocalRiskEngine) (dir : string)
  (files : list string) :
  forall (r : nat) (w w' : World) (res : result nat),
    main_loop eng dir files r w = (res, w') ->
    exists new lines,
      ledger_rows w' = ledger_rows w ++ new /\
      stdout w' = stdout w ++ lines /\
      Forall paid_row new /\
      List.length new = count_paid lines /\
      clock w' = (clock w + List.length new)%nat.
Proof.
  induction files as [|f files IH]; intros r w w' res H; simpl in H.
  - unfold ret in H. injection H as <- <-. exists [], [].
    rewrite !app_nil_r. repeat split; auto.
  - destruct (endswith f ".hl7"); [|exact (IH _ _ _ _ H)].
    unfold bind in H.
    destruct (process_claim eng dir f r w) as [[r1|e] w1] eqn:Ep;
      destruct (process_claim_ledger _ _ _ _ _ _ _ Ep)
        as (new1 & lines1 & Hl1 & Hs1 & Hp1 & Hn1 & Hc1).
    + destruct (IH _ _ _ _ H) as (new2 & lines2 & Hl2 & Hs2 & Hp2 & Hn2 & Hc2).
      exists (new1 ++ new2), (lines1 ++ lines2).
      split; [rewrite Hl2, Hl1; apply eq_sym, app_assoc|].
      split; [rewrite Hs2, Hs1; apply eq_sym, app_assoc|].
      split; [apply Forall_app; now split|].
      rewrite count_paid_app, length_app. split; lia.
    + injection H as <- <-. now exists new1, lines1.
Qed.

(** [run_portal_metrics] only prints. *)
Lemma run_portal_metrics_frame (hist : string) (w : World) :
  let w' := snd (run_portal_metrics hist w) in
  risk_model_pkl w' = risk_model_pkl w /\
  paid_claims_csv w' = paid_claims_csv w /\
  historical_csv_file w' = historical_csv_file w /\
  clock w' = clock w.
Proof.
  unfold run_portal_metrics, bind, ret, raise.
  destruct (paid_claims_csv w) as [df|] eqn:E; simpl;
    destruct (historical_csv_file w hist); simpl; rewrite ?E; repeat split.
Qed.


End Ledger.


(** ** The portal metrics *)

Section Portal.

Context {SK : Sklearn} {EX : Externals}.

Lemma run_portal_metrics_unbound (hist : string) (w : World) :
  paid_claims_csv w = None -> historical_csv_file w hist <> None ->
  run_portal_metrics hist w = (Raise (NameError "total_paid"), w).
Proof.
  unfold run_portal_metrics, bind, ret, raise.
  intros Hp Hh. rewrite Hp. simpl.
  destruct (historical_csv_file w hist); [reflexivity | contradiction].
Qed.

(** X12: [run_portal_metrics] ends in the NameError of total_paid
    exactly when the ledger file does not exist while the historical
    summary does; it has then printed nothing.  When neither file exists
    it returns, having printed nothing.  In no case does it end in another
    NameError. *)
Theorem run_portal_metrics_raises_iff (hist : string) (w : World) :
  (fst (run_portal_metrics hist w) = Raise (NameError "total_paid")
   <-> paid_claims_csv w = None /\ historical_csv_file w hist <> None) /\
  (paid_claims_csv w = None -> snd (run_portal_metrics hist w) = w) /\
  (paid_claims_csv w = None -> historical_csv_file w hist = None ->
   run_portal_metrics hist w = (Ok tt, w)) /\
  (forall name, fst (run_portal_metrics hist w) = Raise (NameError name) ->
                name = "total_paid").
Proof.
  split; [split|split; [|split]].
  - unfold run_portal_metrics, bind, ret, raise.
    destruct (paid_claims_csv w) as [df|]; simpl;
      destruct (historical_csv_file w hist); simpl;
      try discriminate.
    intros _. split; [reflexivity | discriminate].
  - intros [Hp Hh]. now rewrite run_portal_metrics_unbound.
  - intros Hp. unfold run_portal_metrics, bind, ret, raise. rewrite Hp. simpl.
    now destruct (historical_csv_file w hist).
  - intros Hp Hh. unfold run_portal_metrics, bind, ret, raise.
    rewrite Hp. simpl. now rewrite Hh.
  - intros name. unfold run_portal_metrics, bind, ret, raise.
    destruct (paid_claims_csv w) as [df|]; simpl;
      destruct (historical_csv_file w hist); simpl;
      try discriminate.
    intros H. now injection H as <-.
Qed.


End Portal.

Lemma run_portal_metrics_raises_iff_witness :
  fst (run_portal_metrics "hist.csv" audited_world)
  = Raise (NameError "total_paid") /\
  snd (run_portal_metrics "hist.csv" audited_world) = audited_world /\
  run_portal_metrics "hist.csv" fresh_world = (Ok tt, fresh_world).
Proof.
  destruct (run_portal_metrics_raises_iff "hist.csv" audited_world)
    as (Hiff & Hsame & _).
  destruct (run_portal_metrics_raises_iff "hist.csv" fresh_world)
    as (_ & _ & Hnone & _).
  split; [|split].
  - apply Hiff. split; [reflexivity | discriminate].
  - apply Hsame. reflexivity.
  - apply Hnone; reflexivity.
Defined.


(** ** Whole runs *)

Section Runs.

Context {SK : Sklearn} {EX : Externals}.

Lemma process_claim_unfitted (eng : LocalRiskEngine) (dir f : string) (r : nat)
  (w : World) :
  vectorizer eng = None ->
  exists e, process_claim eng dir f r w = (Raise e, w).
Proof.
  intros Hv. unfold process_claim, bind, lift.
  destruct (parse_hl7_claim (path_join dir f)) as [[text value]|e]; [|eauto].
  destruct (autocode text) as [coded|e]; [|eauto].
  rewrite score_unfold, Hv. eauto.
Qed.

Lemma main_loop_unfitted (eng : LocalRiskEngine) (dir : string)
  (files : list string) (r : nat) (w : World) :
  vectorizer eng = None ->
  (filter is_hl7 files = [] /\ main_loop eng dir files r w = (Ok r, w)) \/
  (filter is_hl7 files <> [] /\ exists e, main_loop eng dir files r w = (Raise e, w)).
Proof.
  intros Hv. induction files as [|f files IH]; simpl.
  - left. now split.
  - fold (is_hl7 f). destruct (is_hl7 f).
    + right. split; [discriminate|].
      destruct (process_claim_unfitted eng dir f r w Hv) as [e He].
      exists e. unfold bind. now rewrite He.
    + exact IH.
Qed.

(** X14: when a persisted model is on disk at start, no claim is ever
    settled: the run prints no claim line and leaves the ledger and the
    model file as they were; and if the directory holds at least one
    [.hl7] entry the run ends in an exception with the world untouched. *)
Theorem persisted_model_settles_nothing (dir hist : string) (w w' : World)
  (c : Classifier) (res : result unit) :
  risk_model_pkl w = Some c ->
  main dir hist w = (res, w') ->
  paid_claims_csv w' = paid_claims_csv w /\
  risk_model_pkl w' = Some c /\
  (exists lines, stdout w' = stdout w ++ lines /\
                 existsb is_claim_line lines = false) /\
  (forall files, listdir dir = Ok files -> filter is_hl7 files <> [] ->
                 w' = w /\ exists e, res = Raise e).
Proof.
  intros Hm. unfold main, bind, lift.
  destruct (init_with_persisted_model w c Hm) as [-> _].
  destruct (listdir dir) as [files|e].
  2:{ intros H; injection H as <- <-.
      split; [reflexivity|]. split; [assumption|].
      split; [exists []; now rewrite app_nil_r | discriminate]. }
  destruct (main_loop_unfitted {| vectorizer := None; clf := c |} dir files 0 w
              eq_refl) as [[Hnil ->] | [Hne [e ->]]].
  - simpl. intros H.
    set (w3 := snd (print (BatchCompleteLine 0) w)) in *.
    change (run_portal_metrics hist w3 = (res, w')) in H.
    pose proof (run_portal_metrics_frame hist w3) as (Hm4 & Hp4 & _).
    destruct (run_portal_metrics_output hist w3 w' res H) as (plines & Hs4 & Hpl).
    rewrite H in Hm4, Hp4. simpl in Hm4, Hp4.
    split; [exact Hp4|]. split; [now rewrite Hm4|]. split.
    + exists (BatchCompleteLine 0 :: plines).
      split; [rewrite Hs4; subst w3; simpl; now rewrite <- app_assoc|].
      simpl. exact (proj1 (portal_lines_not_claims plines Hpl)).
    + intros files' Hf. injection Hf as <-. contradiction.
  - intros H; injection H as <- <-.
    split; [reflexivity|]. split; [assumption|].
    split; [exists []; now rewrite app_nil_r|].
    intros _ _ _. split; [reflexivity | eauto].
Qed.

(** X15: when the directory cannot be listed, [main] ends with that
    exception after the engine has been constructed: nothing is printed
    and the ledger is untouched. *)
Theorem listdir_failure_aborts (dir hist : string) (w : World) (e : exn) :
  listdir dir = Raise e ->
  main dir hist w = (Raise e, snd (LocalRiskEngine_init w)) /\
  stdout (snd (LocalRiskEngine_init w)) = stdout w /\
  paid_claims_csv (snd (LocalRiskEngine_init w)) = paid_claims_csv w.
Proof.
  intros Hd. unfold main, bind, lift.
  destruct (LocalRiskEngine_init_total w) as (eng & w1 & -> & Hs & _ & Hp).
  rewrite Hd. simpl. now repeat split.
Qed.


(** X17: the loop stops at the first exception, whatever raised it:
    when it raises on a listing it raises the same, from the same world,
    on any longer listing; when it completes, the rest of a longer listing
    is processed from the count and the world it has reached. *)
Theorem main_loop_stops_at_first_exception (eng : LocalRiskEngine)
  (dir : string) (pre post : list string) (r : nat) (w w' : World) :
  (forall e, main_loop eng dir pre r w = (Raise e, w') ->
             main_loop eng dir (pre ++ post) r w = (Raise e, w')) /\
  (forall r', main_loop eng dir pre r w = (Ok r', w') ->
              main_loop eng dir (pre ++ post) r w = main_loop eng dir post r' w').
Proof.
  split; intros x H; rewrite main_loop_app, H; reflexivity.
Qed.

(** X18: an entry is processed exactly when its name is some stem
    followed by [.hl7], case included: on [stem.hl7] the loop does what
    [process_claim] does, on any other name it does nothing. *)
Theorem hl7_entry_iff (eng : LocalRiskEngine) (dir f : string) (r : nat)
  (w : World) :
  (is_hl7 f = true <-> exists stem, f = (stem ++ ".hl7")%string) /\
  ((exists stem, f = (stem ++ ".hl7")%string) ->
   main_loop eng dir [f] r w = process_claim eng dir f r w) /\
  ((forall stem, f <> (stem ++ ".hl7")%string) ->
   main_loop eng dir [f] r w = (Ok r, w)).
Proof.
  assert (E : is_hl7 f = true <-> exists stem, f = (stem ++ ".hl7")%string)
    by apply endswith_iff.
  split; [exact E|]. split.
  - intros H. apply E in H. simpl. fold (is_hl7 f). rewrite H.
    unfold bind, ret. now destruct (process_claim eng dir f r w) as [[r1|e] w1].
  - intros H. simpl. fold (is_hl7 f).
    destruct (is_hl7 f); [|reflexivity].
    destruct (proj1 E eq_refl) as [stem Hs]. now apply H in Hs.
Qed.

End Runs.

Lemma persisted_model_settles_nothing_witness :
  let w' := snd (bench_main "batch3" second_run_world) in
  paid_claims_csv w' = paid_claims_csv second_run_world /\
  risk_model_pkl w' = Some tt /\
  (exists lines, stdout w' = stdout second_run_world ++ lines /\
                 existsb is_claim_line lines = false) /\
  (forall files, listdir (Externals := bench_externals) "batch3" = Ok files ->
                 filter is_hl7 files <> [] ->
                 w' = second_run_world /\
                 exists e, fst (bench_main "batch3" second_run_world) = Raise e).
Proof.
  apply (persisted_model_settles_nothing (EX := bench_externals)
           "batch3" "hist.csv" second_run_world
           (snd (bench_main "batch3" second_run_world)) tt
           (fst (bench_main "batch3" second_run_world))).
  - reflexivity.
  - vm_compute. reflexivity.
Defined.

Lemma listdir_failure_aborts_witness :
  bench_main "nowhere" fresh_world
  = (Raise (ExternalError "FileNotFoundError"), bench_trained_world) /\
  stdout bench_trained_world = stdout fresh_world /\
  paid_claims_csv bench_trained_world = paid_claims_csv fresh_world.
Proof.
  apply (listdir_failure_aborts (EX := bench_externals) "nowhere" "hist.csv"
           fresh_world (ExternalError "FileNotFoundError")).
  reflexivity.
Defined.


Lemma main_loop_stops_at_first_exception_witness :
  main_loop (EX := bench_externals) bench_engine "broken"
    (["a.hl7"; "x.hl7"] ++ ["c.hl7"]) 0 bench_trained_world
  = (Raise (ExternalError "RuntimeError"), bench_after_first_claim).
Proof.
  apply (main_loop_stops_at_first_exception (EX := bench_externals) bench_engine
           "broken" ["a.hl7"; "x.hl7"] ["c.hl7"] 0 bench_trained_world
           bench_after_first_claim).
  vm_compute. reflexivity.
Defined.

Lemma hl7_entry_iff_witness :
  main_loop (EX := bench_externals) bench_engine "batch3" ["a.hl7"] 0
    bench_trained_world
  = process_claim (EX := bench_externals) bench_engine "batch3" "a.hl7" 0
      bench_trained_world /\
  main_loop (EX := bench_externals) bench_engine "batch3" ["A.HL7"] 0
    bench_trained_world
  = (Ok 0%nat, bench_trained_world).
Proof.
  split.
  - apply (hl7_entry_iff (EX := bench_externals) bench_engine "batch3" "a.hl7" 0
             bench_trained_world).
    exists "a". reflexivity.
  - apply (hl7_entry_iff (EX := bench_externals) bench_engine "batch3" "A.HL7" 0
             bench_trained_world).
    intros stem H.
    assert (T : is_hl7 "A.HL7" = true)
      by (apply (endswith_iff "A.HL7" ".hl7"); now exists stem).
    discriminate T.
Defined.

(** ** What reaches [float] *)

Lemma clean_token_of_list (l : list ascii) :
  l <> [] ->
  forallb (fun c => negb (is_space c)) l = true ->
  clean_token (string_of_list_ascii l) = true.
Proof.
  intros Hne Hall. unfold clean_token.
  rewrite list_ascii_of_string_of_list_ascii, Hall.
  destruct l; [contradiction | reflexivity].
Qed.

Lemma forallb_rev {A} (f : A -> bool) (l : list A) :
  forallb f l = true -> forallb f (rev l) = true.
Proof.
  rewrite !forallb_forall. intros H x Hx. apply H. now apply in_rev.
Qed.

Lemma split_from_clean (s : string) :
  forall cur,
    forallb (fun c => negb (is_space c)) cur = true ->
    Forall (fun t => clean_token t = true) (split_from cur s).
Proof.
  induction s as [|c s IH]; intros cur Hcur; cbn [split_from].
  - destruct cur as [|x cur]; [constructor|].
    constructor; [|constructor].
    apply clean_token_of_list; [|now apply forallb_rev].
    simpl. now destruct (rev cur).
  - destruct (is_space c) eqn:Ec.
    + destruct cur as [|x cur]; [now apply IH|].
      constructor; [|now apply IH].
      apply clean_token_of_list; [|now apply forallb_rev].
      simpl. now destruct (rev cur).
    + apply IH. simpl. now rewrite Ec.
Qed.

Section TokensAndCounts.

Context {SK : Sklearn} {EX : Externals}.

(** X19: [score] hands [float] nothing but a token that is not empty and
    holds no whitespace: replacing [float] by any function that agrees
    with it on such tokens changes no generative score. *)
Theorem llm_score_float_on_clean_tokens (float' : string -> result Q)
  (coded : Codes) (text : string) :
  (forall t, clean_token t = true -> float' t = float_of_str t) ->
  llm_score (EX := with_float EX float') coded text = llm_score coded text.
Proof.
  intros Hagree. unfold llm_score, llm_attempt, rbind. simpl.
  destruct (ollama_generate _ _) as [resp|e]; [|reflexivity].
  destruct (dict_getitem resp "response") as [response|e]; [|reflexivity].
  pose proof (split_from_clean response [] eq_refl) as Hclean.
  fold (split response) in Hclean.
  destruct (split response) as [|token rest]; [reflexivity|]. simpl.
  rewrite Hagree; [reflexivity|]. now inversion Hclean.
Qed.

(** X20: every [.hl7] entry of a loop that completes is accounted for
    once: it is either one new row of the ledger or one rejection, and the
    clock has been read once per new row. *)
Theorem main_loop_conservation (eng : LocalRiskEngine) (dir : string)
  (files : list string) (r : nat) (w w' : World) :
  main_loop eng dir files 0 w = (Ok r, w') ->
  exists new,
    ledger_rows w' = ledger_rows w ++ new /\
    (r + List.length new)%nat = List.length (filter is_hl7 files) /\
    clock w' = (clock w + List.length new)%nat.
Proof.
  intros H.
  destruct (main_loop_output _ _ _ _ _ _ _ H) as (lines & Hs & Hall & _ & _ & Hr).
  destruct (Hr r eq_refl) as [Hcount Hlen].
  destruct (main_loop_ledger _ _ _ _ _ _ _ H)
    as (new & lines' & Hl & Hs' & _ & Hn & Hc).
  rewrite Hs in Hs'. apply app_inv_head in Hs'. subst lines'.
  exists new. split; [exact Hl|]. split; [|exact Hc].
  pose proof (claim_lines_paid_or_rejected lines Hall). lia.
Qed.

End TokensAndCounts.

Lemma llm_score_float_on_clean_tokens_witness :
  llm_score (EX := with_float bench_externals fussy_float)
    {| ICD := ["E11.9"]; CPT := [] |} "diabetes check"
  = llm_score (EX := bench_externals)
      {| ICD := ["E11.9"]; CPT := [] |} "diabetes check".
Proof.
  apply (llm_score_float_on_clean_tokens (EX := bench_externals) fussy_float).
  intros t H. unfold fussy_float. now rewrite H.
Defined.

Lemma main_loop_conservation_witness :
  exists new,
    ledger_rows (snd (main_loop (EX := bench_externals) bench_engine "batch3"
                        ["a.hl7"; "notes.txt"; "b.hl7"; "c.hl7"] 0
                        bench_trained_world))
    = ledger_rows bench_trained_world ++ new /\
    (1 + List.length new)%nat
    = List.length (filter is_hl7 ["a.hl7"; "notes.txt"; "b.hl7"; "c.hl7"]) /\
    clock (snd (main_loop (EX := bench_externals) bench_engine "batch3"
                  ["a.hl7"; "notes.txt"; "b.hl7"; "c.hl7"] 0
                  bench_trained_world))
    = (clock bench_trained_world + List.length new)%nat.
Proof.
  apply (main_loop_conservation (EX := bench_externals) bench_engine "batch3"
           ["a.hl7"; "notes.txt"; "b.hl7"; "c.hl7"] 1 bench_trained_world).
  vm_compute. reflexivity.
Defined.
